(** * Node-zero REST client of the agent installer

    Shallow embedding of [pkg/agent/rest.go] (package [agent]): the
    constructor [NewNodeZeroRestClient] and the methods of
    [NodeZeroRestClient].

    The Go code is imperative: it allocates a client object and assigns its
    fields, calls the asset store, the rendezvous derivation and the generated
    REST client, and writes to the global logger.  It is embedded in a small
    state monad with panics over a [World] that holds the client objects (a
    store indexed by pointer), the state of everything outside the package,
    the trace of outside calls issued, and the log lines written. *)

From Stdlib Require Import DecimalString.
From stdpp Require Import base list strings.

Local Open Scope string_scope.
Local Open Scope list_scope.

(** ** Errors ([error], [github.com/pkg/errors]) *)

Module errors.

(** A Go [error] value.  [Opaque] stands for an error made outside this
    package (transport, protocol, asset store); [New] and [Wrap] are the two
    constructors of [github.com/pkg/errors] the source calls ([Wrapf] with
    its format already applied). *)
Inductive error : Type :=
| Opaque (msg : string)
| New (msg : string)
| Wrap (cause : error) (msg : string).

(** [err.Error()]: a wrapped error prints its message, a colon, its cause. *)
Fixpoint Error (e : error) : string :=
  match e with
  | Opaque msg => msg
  | New msg => msg
  | Wrap cause msg => msg +:+ ": " +:+ Error cause
  end.

End errors.

Abbreviation error := errors.error.

(** ** Data model *)

(** [strfmt.UUID] is a Go string type. *)
Definition UUID : Type := string.

(** A pointer to a [NodeZeroRestClient] object: its index in the store. *)
Definition ptr : Type := nat.

(** [url.URL], with the three fields the source sets; every other field keeps
    its zero value. *)
Record url_URL : Type := mk_URL {
  Scheme : string;
  Host : string;
  Path : string
}.

(** [client.Config]; [URL] is a [*url.URL], nil in the zero value.  The
    source leaves [Transport] and [AuthInfo] at nil throughout. *)
Record client_Config : Type := mk_Config {
  URL : option url_URL
}.

(** [models.Cluster] and [models.InfraEnv]: the source reads only [ID], a
    [*strfmt.UUID] that may be nil. *)
Record models_Cluster : Type := mk_Cluster {
  Cluster_ID : option UUID
}.

Record models_InfraEnv : Type := mk_InfraEnv {
  InfraEnv_ID : option UUID
}.

(** [events.V2ListEventsParams] as the source builds it: only [InfraEnvID] is
    set. *)
Record V2ListEventsParams : Type := mk_V2ListEventsParams {
  InfraEnvID : option UUID
}.

(** Modelled from the spec: [agent.Config] of [pkg/types/agent], which the
    spec describes as carrying a single operator-declared rendezvous IP. *)
Record agent_Config : Type := mk_agent_Config {
  RendezvousIP : string
}.

(** Modelled from the spec: [types.InstallConfig], which the spec describes as
    carrying at minimum an SSH public key. *)
Record types_InstallConfig : Type := mk_types_InstallConfig {
  SSHKey : string
}.

(** [agentconfig.AgentConfig]: the asset, whose [Config] is a [*agent.Config]. *)
Record AgentConfig : Type := mk_AgentConfig {
  AgentConfig_Config : option agent_Config
}.

(** [installconfig.InstallConfig]: the asset, whose [Config] is a
    [*types.InstallConfig]. *)
Record InstallConfig : Type := mk_InstallConfig {
  InstallConfig_Config : option types_InstallConfig
}.

(** The three asset descriptors handed to [assetStore.Load]. *)
Inductive AssetKind : Type :=
| AgentConfigAsset
| AgentManifestsAsset
| InstallConfigAsset.

(** Log lines written through [logrus]. *)
Inductive Level : Type := DebugLevel | InfoLevel.

Record LogEntry : Type := mk_LogEntry {
  level : Level;
  message : string
}.

(** [%d] of a length. *)
Definition format_d (n : nat) : string := NilEmpty.string_of_uint (Nat.to_uint n).

(** ** The world outside the package *)

Section Rest.

(** [Env] is the state of everything outside the package (asset directory,
    network, remote service); [context_Context] is [context.Context]; [Store] is the
    asset store; [AssistedInstall] is [client.AssistedInstall];
    [NMStateConfig] is [*v1beta1.NMStateConfig]; [Event] is
    [*models.Event]. *)
Context {Env context_Context Store AssistedInstall NMStateConfig Event : Type}.

(** [manifests.AgentManifests]: the source reads only [NMStateConfigs]. *)
Record AgentManifests : Type := mk_AgentManifests {
  NMStateConfigs : list NMStateConfig
}.

(** Success responses of the generated client.  [models.InfraEnvList] and
    [models.ClusterList] are slices of pointers: an element may be nil. *)
Record ListInfraEnvsOK : Type := mk_ListInfraEnvsOK {
  ListInfraEnvsOK_Payload : list (option models_InfraEnv)
}.

Record V2ListClustersOK : Type := mk_V2ListClustersOK {
  V2ListClustersOK_Payload : list (option models_Cluster)
}.

(** [models.EventList] is a slice of events; a nil slice is the empty
    list. *)
Record V2ListEventsOK : Type := mk_V2ListEventsOK {
  V2ListEventsOK_Payload : list Event
}.

(** What the source calls and does not define.  A Go call returning
    [(value, error)] is a pair of options: either component may be nil.
    The calls that reach outside the process transform [Env]. *)
Record Outside : Type := mk_Outside {
  h_NewStore :
    string -> Env -> (option Store * option error) * Env;
  h_Load_AgentConfig :
    Store -> Env -> (option AgentConfig * option error) * Env;
  h_Load_AgentManifests :
    Store -> Env -> (option AgentManifests * option error) * Env;
  h_Load_InstallConfig :
    Store -> Env -> (option InstallConfig * option error) * Env;
  Name : AssetKind -> string;
  h_RetrieveRendezvousIP :
    option agent_Config -> list NMStateConfig ->
    Env -> (string * option error) * Env;
  net_JoinHostPort : string -> string -> string;
  client_DefaultBasePath : string;
  client_New : client_Config -> AssistedInstall;
  h_ListInfraEnvs :
    AssistedInstall -> option context_Context ->
    Env -> (option ListInfraEnvsOK * option error) * Env;
  h_V2ListClusters :
    AssistedInstall -> option context_Context ->
    Env -> (option V2ListClustersOK * option error) * Env;
  h_V2ListEvents :
    AssistedInstall -> option context_Context -> V2ListEventsParams ->
    Env -> (option V2ListEventsOK * option error) * Env
}.

(** [NodeZeroRestClient]: the struct of the source, field by field. *)
Record NodeZeroRestClient : Type := mk_NodeZeroRestClient {
  Client : option AssistedInstall;
  ctx : option context_Context;
  config : client_Config;
  NodeZeroIP : string;
  NodeSSHKey : list string
}.

(** [NodeZeroRestClient{}] *)
Definition zero_NodeZeroRestClient : NodeZeroRestClient :=
  {| Client := None; ctx := None; config := {| URL := None |};
     NodeZeroIP := ""; NodeSSHKey := [] |}.

Definition set_Client (v : option AssistedInstall) (r : NodeZeroRestClient) :=
  {| Client := v; ctx := ctx r; config := config r;
     NodeZeroIP := NodeZeroIP r; NodeSSHKey := NodeSSHKey r |}.

Definition set_ctx (v : option context_Context) (r : NodeZeroRestClient) :=
  {| Client := Client r; ctx := v; config := config r;
     NodeZeroIP := NodeZeroIP r; NodeSSHKey := NodeSSHKey r |}.

Definition set_config (v : client_Config) (r : NodeZeroRestClient) :=
  {| Client := Client r; ctx := ctx r; config := v;
     NodeZeroIP := NodeZeroIP r; NodeSSHKey := NodeSSHKey r |}.

Definition set_NodeZeroIP (v : string) (r : NodeZeroRestClient) :=
  {| Client := Client r; ctx := ctx r; config := config r;
     NodeZeroIP := v; NodeSSHKey := NodeSSHKey r |}.

Definition set_NodeSSHKey (v : list string) (r : NodeZeroRestClient) :=
  {| Client := Client r; ctx := ctx r; config := config r;
     NodeZeroIP := NodeZeroIP r; NodeSSHKey := v |}.

(** One entry per call that leaves the package, with its arguments. *)
Inductive Call : Type :=
| Call_NewStore (assetDir : string)
| Call_Load (a : AssetKind)
| Call_RetrieveRendezvousIP
    (agentConfig : option agent_Config) (nmStateConfigs : list NMStateConfig)
| Call_ListInfraEnvs (c : AssistedInstall) (cx : option context_Context)
| Call_V2ListClusters (c : AssistedInstall) (cx : option context_Context)
| Call_V2ListEvents
    (c : AssistedInstall) (cx : option context_Context) (params : V2ListEventsParams).

Record World : Type := mk_World {
  env : Env;
  heap : list NodeZeroRestClient;
  calls : list Call;
  logs : list LogEntry
}.

(** ** The monad: state passing over [World]

    A computation returns its value, or [None] when the Go code panics (nil
    dereference, index out of range), together with the world it leaves
    behind; after a panic nothing more runs. *)

Definition M (A : Type) : Type := World -> option A * World.

Definition ret {A} (a : A) : M A := fun w => (Some a, w).

Definition bind {A B} (m : M A) (k : A -> M B) : M B :=
  fun w => match m w with
           | (Some a, w') => k a w'
           | (None, w') => (None, w')
           end.

Definition panic {A} : M A := fun w => (None, w).

End Rest.

Declare Scope go_scope.
Delimit Scope go_scope with go.
Notation "'let*' x := m 'in' k" := (bind m (fun x => k))
  (at level 10, x pattern, m at level 100, k at level 200) : go_scope.
Notation "m ;; k" := (bind m (fun _ => k))
  (at level 100, k at level 200, right associativity) : go_scope.

(** ** Primitive effects *)

Section Primitives.

Context {Env context_Context Store AssistedInstall NMStateConfig Event : Type}.

Local Abbreviation World :=
  (@World Env context_Context AssistedInstall NMStateConfig).
Local Abbreviation M := (@M Env context_Context AssistedInstall NMStateConfig).
Local Abbreviation NodeZeroRestClient :=
  (@NodeZeroRestClient context_Context AssistedInstall).
Local Abbreviation Call := (@Call context_Context AssistedInstall NMStateConfig).

Local Open Scope go_scope.

(** [&NodeZeroRestClient{}]: a fresh object with every field zero. *)
Definition new_NodeZeroRestClient : M ptr :=
  fun w => (Some (length (heap w)),
            {| env := env w; heap := heap w ++ [zero_NodeZeroRestClient];
               calls := calls w; logs := logs w |}).

(** Reading through a pointer; a nil or dangling pointer panics. *)
Definition deref (p : ptr) : M NodeZeroRestClient :=
  fun w => (heap w !! p, w).

(** Assigning a field through a pointer. *)
Definition assign (p : ptr) (f : NodeZeroRestClient -> NodeZeroRestClient)
  : M unit :=
  fun w => match heap w !! p with
           | Some r => (Some tt, {| env := env w; heap := <[p := f r]> (heap w);
                                    calls := calls w; logs := logs w |})
           | None => (None, w)
           end.

(** Using a nilable value where Go dereferences it. *)
Definition nonnil {A} (o : option A) : M A :=
  match o with
  | Some a => ret a
  | None => panic
  end.

(** [l[i]]; out of range panics. *)
Definition index {A} (l : list A) (i : nat) : M A := nonnil (l !! i).

(** A call that leaves the package: it is entered in the trace and its
    handler runs on the outside state. *)
Definition outside {A} (c : Call) (h : Env -> A * Env) : M A :=
  fun w => let '(a, e) := h (env w) in
           (Some a, {| env := e; heap := heap w;
                       calls := calls w ++ [c]; logs := logs w |}).

Definition log (lv : Level) (msg : string) : M unit :=
  fun w => (Some tt, {| env := env w; heap := heap w; calls := calls w;
                        logs := logs w ++ [mk_LogEntry lv msg] |}).

Definition logrus_Debug (msg : string) : M unit := log DebugLevel msg.

(** [logrus.Infof] with a format that ends in [%d]. *)
Definition logrus_Infof (prefix : string) (n : nat) : M unit :=
  log InfoLevel (prefix +:+ format_d n).

End Primitives.

(** ** The code of [rest.go] *)

Section Code.

Context {Env context_Context Store AssistedInstall NMStateConfig Event : Type}.
Variable O : @Outside Env context_Context Store AssistedInstall NMStateConfig Event.

Local Abbreviation M := (@M Env context_Context AssistedInstall NMStateConfig).
Local Abbreviation AgentManifests := (@AgentManifests NMStateConfig).

Local Open Scope go_scope.

(** *** The outside calls, entered in the trace *)

Definition assetstore_NewStore (assetDir : string)
  : M (option Store * option error) :=
  outside (Call_NewStore assetDir) (h_NewStore O assetDir).

(** [assetStore.Load(asset)], one per descriptor type; calling it on a nil
    store panics. *)
Definition Load_AgentConfig (assetStore : option Store)
  : M (option AgentConfig * option error) :=
  let* st := nonnil assetStore in
  outside (Call_Load AgentConfigAsset) (h_Load_AgentConfig O st).

Definition Load_AgentManifests (assetStore : option Store)
  : M (option AgentManifests * option error) :=
  let* st := nonnil assetStore in
  outside (Call_Load AgentManifestsAsset) (h_Load_AgentManifests O st).

Definition Load_InstallConfig (assetStore : option Store)
  : M (option InstallConfig * option error) :=
  let* st := nonnil assetStore in
  outside (Call_Load InstallConfigAsset) (h_Load_InstallConfig O st).

Definition image_RetrieveRendezvousIP
    (agentConfig : option agent_Config) (nmStateConfigs : list NMStateConfig)
  : M (string * option error) :=
  outside (Call_RetrieveRendezvousIP agentConfig nmStateConfigs)
          (h_RetrieveRendezvousIP O agentConfig nmStateConfigs).

Definition Installer_ListInfraEnvs (c : AssistedInstall) (cx : option context_Context)
  : M (option ListInfraEnvsOK * option error) :=
  outside (Call_ListInfraEnvs c cx) (h_ListInfraEnvs O c cx).

Definition Installer_V2ListClusters (c : AssistedInstall) (cx : option context_Context)
  : M (option V2ListClustersOK * option error) :=
  outside (Call_V2ListClusters c cx) (h_V2ListClusters O c cx).

Definition Events_V2ListEvents
    (c : AssistedInstall) (cx : option context_Context) (params : V2ListEventsParams)
  : M (option (@V2ListEventsOK Event) * option error) :=
  outside (Call_V2ListEvents c cx params) (h_V2ListEvents O c cx params).

(** [x != nil] *)
Definition not_nil {A} (o : option A) : bool :=
  match o with
  | Some _ => true
  | None => false
  end.

(** [if err != nil { logrus.Debug(errors.Wrapf(err, "failed to load %s", name)) }] *)
Definition debug_load_failure (err : option error) (a : AssetKind) : M unit :=
  match err with
  | Some e =>
      logrus_Debug (errors.Error (errors.Wrap e ("failed to load " +:+ Name O a)))
  | None => ret tt
  end.

(** *** [NewNodeZeroRestClient] *)

Definition NewNodeZeroRestClient (ctx0 : option context_Context) (assetDir : string)
  : M (option ptr * option error) :=
  let* restClient := new_NodeZeroRestClient in
  let* (assetStore, err) := assetstore_NewStore assetDir in
  match err with
  | Some e => ret (None, Some (errors.Wrap e "failed to create asset store"))
  | None =>
  let* (agentConfig, agentConfigError) := Load_AgentConfig assetStore in
  let* (agentManifests, manifestError) := Load_AgentManifests assetStore in
  let* (installConfig, installConfigError) := Load_InstallConfig assetStore in
  debug_load_failure agentConfigError AgentConfigAsset ;;
  debug_load_failure manifestError AgentManifestsAsset ;;
  debug_load_failure installConfigError InstallConfigAsset ;;
  if not_nil agentConfigError || not_nil manifestError
     || not_nil installConfigError
  then ret (None, Some (errors.New
              "failed to load AgentConfig, NMStateConfig, or InstallConfig"))
  else
  let emptyNMStateConfigs : list NMStateConfig := [] in
  (* the statements after the four-way branch *)
  let after (RendezvousIP : string) (rendezvousIPError : option error)
    : M (option ptr * option error) :=
    match rendezvousIPError with
    | Some e => ret (None, Some e)
    | None =>
    match installConfig with
    | Some ic =>
        let* cfg := nonnil (InstallConfig_Config ic) in
        let* r := deref restClient in
        assign restClient (set_NodeSSHKey (NodeSSHKey r ++ [SSHKey cfg]))
    | None => ret tt
    end ;;
    let config0 :=
      {| URL := Some {| Scheme := "http";
                        Host := net_JoinHostPort O RendezvousIP "8090";
                        Path := client_DefaultBasePath O |} |} in
    let client := client_New O config0 in
    assign restClient (set_Client (Some client)) ;;
    assign restClient (set_ctx ctx0) ;;
    assign restClient (set_config config0) ;;
    assign restClient (set_NodeZeroIP RendezvousIP) ;;
    ret (Some restClient, None)
    end in
  match agentConfig, agentManifests with
  | Some ac, Some am =>
      let* (ip, e) := image_RetrieveRendezvousIP
                        (AgentConfig_Config ac) (NMStateConfigs am) in
      after ip e
  | None, Some am =>
      let* (ip, e) := image_RetrieveRendezvousIP
                        (Some {| RendezvousIP := "" |}) (NMStateConfigs am) in
      after ip e
  | Some ac, None =>
      let* (ip, e) := image_RetrieveRendezvousIP
                        (AgentConfig_Config ac) emptyNMStateConfigs in
      after ip e
  | None, None =>
      ret (None, Some (errors.New "both AgentConfig and NMStateConfig are empty"))
  end
  end.

(** *** The methods *)

(** [IsRestAPILive] *)
Definition IsRestAPILive (rest : ptr) : M bool :=
  let* r := deref rest in
  let* c := nonnil (Client r) in
  let* (_, err) := Installer_ListInfraEnvs c (ctx r) in
  match err with
  | Some _ => ret false
  | None => ret true
  end.

(** [GetRestAPIServiceBaseURL] *)
Definition GetRestAPIServiceBaseURL (rest : ptr) : M (option url_URL) :=
  let* r := deref rest in
  ret (URL (config r)).

(** [GetInfraEnvEvents] *)
Definition GetInfraEnvEvents (rest : ptr) (infraEnvID : option UUID)
  : M (list Event * option error) :=
  let listEventsParams := {| InfraEnvID := infraEnvID |} in
  let* r := deref rest in
  let* c := nonnil (Client r) in
  let* (clusterEventsResult, err) :=
    Events_V2ListEvents c (ctx r) listEventsParams in
  match err with
  | Some e => ret ([], Some e)
  | None =>
      let* ok := nonnil clusterEventsResult in
      ret (V2ListEventsOK_Payload ok, None)
  end.

(** [getClusterID] *)
Definition getClusterID (rest : ptr) : M (option UUID * option error) :=
  let* r := deref rest in
  let* c := nonnil (Client r) in
  let* (clusterResult, err) := Installer_V2ListClusters c (ctx r) in
  match err with
  | Some e => ret (None, Some e)
  | None =>
      let* ok := nonnil clusterResult in
      let clusterList := V2ListClustersOK_Payload ok in
      if decide (length clusterList = 1) then
        let* p0 := index clusterList 0 in
        let* c0 := nonnil p0 in
        let clusterID := Cluster_ID c0 in
        ret (clusterID, None)
      else if decide (length clusterList = 0) then
        logrus_Debug "cluster is not registered in rest API" ;;
        ret (None, None)
      else
        logrus_Infof "found too many clusters. number of clusters found: "
                     (length clusterList) ;;
        ret (None, None)
  end.

(** [getClusterInfraEnvID] *)
Definition getClusterInfraEnvID (rest : ptr) : M (option UUID * option error) :=
  let* r := deref rest in
  let* c := nonnil (Client r) in
  let* (infraEnvResult, err) := Installer_ListInfraEnvs c (ctx r) in
  match err with
  | Some e => ret (None, Some e)
  | None =>
      let* ok := nonnil infraEnvResult in
      let infraEnvList := ListInfraEnvsOK_Payload ok in
      if decide (length infraEnvList = 1) then
        let* p0 := index infraEnvList 0 in
        let* i0 := nonnil p0 in
        let clusterInfraEnvID := InfraEnv_ID i0 in
        ret (clusterInfraEnvID, None)
      else if decide (length infraEnvList = 0) then
        logrus_Debug "infraenv is not registered in rest API" ;;
        ret (None, None)
      else
        logrus_Infof "found too many infraenvs. number of infraenvs found: "
                     (length infraEnvList) ;;
        ret (None, None)
  end.

End Code.

(** ** Vocabulary of the statements *)

Section Vocabulary.

Context {Env context_Context Store AssistedInstall NMStateConfig Event : Type}.
Variable O : @Outside Env context_Context Store AssistedInstall NMStateConfig Event.

Local Abbreviation World :=
  (@World Env context_Context AssistedInstall NMStateConfig).
Local Abbreviation M := (@M Env context_Context AssistedInstall NMStateConfig).
Local Abbreviation NodeZeroRestClient :=
  (@NodeZeroRestClient context_Context AssistedInstall).
Local Abbreviation Call := (@Call context_Context AssistedInstall NMStateConfig).
Local Abbreviation AgentManifests := (@AgentManifests NMStateConfig).

(** The world after one outside call [c] that left the outside in [e]. *)
Definition called (w : World) (c : Call) (e : Env) : World :=
  {| env := e; heap := heap w; calls := calls w ++ [c]; logs := logs w |}.

(** The world after one more log line. *)
Definition logged (w : World) (lv : Level) (msg : string) : World :=
  {| env := env w; heap := heap w; calls := calls w;
     logs := logs w ++ [mk_LogEntry lv msg] |}.

(** The world with another store of client objects. *)
Definition with_heap (w : World) (h : list NodeZeroRestClient) : World :=
  {| env := env w; heap := h; calls := calls w; logs := logs w |}.

(** The four calls every construction issues once the store exists. *)
Definition load_calls (assetDir : string) : list Call :=
  [Call_NewStore assetDir; Call_Load AgentConfigAsset;
   Call_Load AgentManifestsAsset; Call_Load InstallConfigAsset].

(** The debug lines of the failed loads, in the order the source writes
    them. *)
Definition load_failure_lines (ea em ei : option error) : list LogEntry :=
  let line (err : option error) (a : AssetKind) :=
    match err with
    | Some e => [mk_LogEntry DebugLevel
                   (errors.Error (errors.Wrap e ("failed to load " +:+ Name O a)))]
    | None => []
    end in
  line ea AgentConfigAsset ++ line em AgentManifestsAsset
  ++ line ei InstallConfigAsset.

(** The four-way branch of the source as a table: the arguments of the
    derivation call by which assets are present, [None] when neither is. *)
Definition resolution_inputs
    (agentConfig : option AgentConfig) (agentManifests : option AgentManifests)
  : option (option agent_Config * list NMStateConfig) :=
  match agentConfig, agentManifests with
  | Some ac, Some am => Some (AgentConfig_Config ac, NMStateConfigs am)
  | None, Some am => Some (Some {| RendezvousIP := "" |}, NMStateConfigs am)
  | Some ac, None => Some (AgentConfig_Config ac, [])
  | None, None => None
  end.

(** The endpoint the source builds for the address [ip]. *)
Definition endpoint (ip : string) : url_URL :=
  {| Scheme := "http"; Host := net_JoinHostPort O ip "8090";
     Path := client_DefaultBasePath O |}.

(** The client object a successful construction leaves behind. *)
Definition built (ctx0 : option context_Context) (ip : string) (keys : list string)
  : NodeZeroRestClient :=
  {| Client := Some (client_New O {| URL := Some (endpoint ip) |});
     ctx := ctx0;
     config := {| URL := Some (endpoint ip) |};
     NodeZeroIP := ip;
     NodeSSHKey := keys |}.

(** The operations of the package, to speak of arbitrary sequences of
    them. *)
Inductive Op : Type :=
| Op_New (ctx0 : option context_Context) (assetDir : string)
| Op_IsRestAPILive (rest : ptr)
| Op_GetRestAPIServiceBaseURL (rest : ptr)
| Op_GetInfraEnvEvents (rest : ptr) (infraEnvID : option UUID)
| Op_getClusterID (rest : ptr)
| Op_getClusterInfraEnvID (rest : ptr).

(** The world an operation leaves behind, whatever it returned. *)
Definition run_op (o : Op) (w : World) : World :=
  match o with
  | Op_New ctx0 assetDir => (NewNodeZeroRestClient O ctx0 assetDir w).2
  | Op_IsRestAPILive rest => (IsRestAPILive O rest w).2
  | Op_GetRestAPIServiceBaseURL rest => (GetRestAPIServiceBaseURL rest w).2
  | Op_GetInfraEnvEvents rest i => (GetInfraEnvEvents O rest i w).2
  | Op_getClusterID rest => (getClusterID O rest w).2
  | Op_getClusterInfraEnvID rest => (getClusterInfraEnvID O rest w).2
  end.

Definition run_ops (ops : list Op) (w : World) : World :=
  fold_left (fun w o => run_op o w) ops w.

(** A computation that leaves the store of client objects as it found
    it. *)
Definition keeps_heap {A} (m : M A) : Prop :=
  forall w, heap (m w).2 = heap w.

(** A computation that writes to no object but [q]. *)
Definition writes_only (q : ptr) {A} (m : M A) : Prop :=
  forall w, length (heap (m w).2) = length (heap w) /\
            forall p, p <> q -> heap (m w).2 !! p = heap w !! p.

End Vocabulary.

(** ** A scripted outside world

    A concrete instance of [Outside], used to run the code on explicit
    inputs: every outside call answers from a fixed script. *)

Module Demo.

Record Script : Type := mk_Script {
  s_store : option unit * option error;
  s_agentConfig : option AgentConfig * option error;
  s_agentManifests : option (@AgentManifests string) * option error;
  s_installConfig : option InstallConfig * option error;
  s_infraEnvs : option ListInfraEnvsOK * option error;
  s_clusters : option V2ListClustersOK * option error;
  s_events : option (@V2ListEventsOK string) * option error
}.

(** [net.JoinHostPort]: a host with a colon is bracketed. *)
Fixpoint has_colon (s : string) : bool :=
  match s with
  | EmptyString => false
  | String a s' => if Ascii.eqb a (Ascii.ascii_of_nat 58) then true else has_colon s'
  end.

Definition JoinHostPort (host port : string) : string :=
  if has_colon host then "[" +:+ host +:+ "]:" +:+ port
  else host +:+ ":" +:+ port.

(** A derivation in the shape of the repository's: the pinned address when
    there is one, else the address of the first host declaration (here the
    declaration is its address), else an error. *)
Definition RetrieveRendezvousIP
    (agentConfig : option agent_Config) (nmStateConfigs : list string)
  : string * option error :=
  let from_hosts :=
    match nmStateConfigs with
    | ip :: _ => (ip, None)
    | [] => ("", Some (errors.New
        "missing rendezvousIP in agent-config or at least one NMStateConfig manifest"))
    end in
  match agentConfig with
  | Some c => if decide (RendezvousIP c = "") then from_hosts
              else (RendezvousIP c, None)
  | None => from_hosts
  end.

Definition asset_name (a : AssetKind) : string :=
  match a with
  | AgentConfigAsset => "Agent Config"
  | AgentManifestsAsset => "Agent Manifests"
  | InstallConfigAsset => "Install Config"
  end.

(** The client handle remembers the configuration it was built from. *)
Definition O : @Outside Script unit unit client_Config string string :=
  {| h_NewStore := fun _ e => (s_store e, e);
     h_Load_AgentConfig := fun _ e => (s_agentConfig e, e);
     h_Load_AgentManifests := fun _ e => (s_agentManifests e, e);
     h_Load_InstallConfig := fun _ e => (s_installConfig e, e);
     Name := asset_name;
     h_RetrieveRendezvousIP := fun c n e => (RetrieveRendezvousIP c n, e);
     net_JoinHostPort := JoinHostPort;
     client_DefaultBasePath := "/api/assisted-install";
     client_New := fun c => c;
     h_ListInfraEnvs := fun _ _ e => (s_infraEnvs e, e);
     h_V2ListClusters := fun _ _ e => (s_clusters e, e);
     h_V2ListEvents := fun _ _ _ e => (s_events e, e) |}.

Definition uuid1 : UUID := "7c2d0f0e-5a3b-4c1d-9e8f-000000000001".
Definition uuid2 : UUID := "7c2d0f0e-5a3b-4c1d-9e8f-000000000002".

(** Agent config absent, two host declarations, install config present; the
    service knows no cluster and no infra-environment yet. *)
Definition script0 : Script :=
  {| s_store := (Some tt, None);
     s_agentConfig := (None, None);
     s_agentManifests :=
       (Some {| NMStateConfigs := ["10.0.0.5"; "10.0.0.6"] |}, None);
     s_installConfig :=
       (Some {| InstallConfig_Config := Some {| SSHKey := "ssh-ed25519 AAAA" |} |},
        None);
     s_infraEnvs := (Some {| ListInfraEnvsOK_Payload := [] |}, None);
     s_clusters := (Some {| V2ListClustersOK_Payload := [] |}, None);
     s_events := (Some {| V2ListEventsOK_Payload := [] |}, None) |}.

Definition with_agentConfig (x : option AgentConfig * option error) (s : Script) :=
  {| s_store := s_store s; s_agentConfig := x;
     s_agentManifests := s_agentManifests s;
     s_installConfig := s_installConfig s; s_infraEnvs := s_infraEnvs s;
     s_clusters := s_clusters s; s_events := s_events s |}.

Definition with_agentManifests
    (x : option (@AgentManifests string) * option error) (s : Script) :=
  {| s_store := s_store s; s_agentConfig := s_agentConfig s;
     s_agentManifests := x;
     s_installConfig := s_installConfig s; s_infraEnvs := s_infraEnvs s;
     s_clusters := s_clusters s; s_events := s_events s |}.

Definition with_installConfig (x : option InstallConfig * option error) (s : Script) :=
  {| s_store := s_store s; s_agentConfig := s_agentConfig s;
     s_agentManifests := s_agentManifests s;
     s_installConfig := x; s_infraEnvs := s_infraEnvs s;
     s_clusters := s_clusters s; s_events := s_events s |}.

Definition with_infraEnvs (x : option ListInfraEnvsOK * option error) (s : Script) :=
  {| s_store := s_store s; s_agentConfig := s_agentConfig s;
     s_agentManifests := s_agentManifests s;
     s_installConfig := s_installConfig s; s_infraEnvs := x;
     s_clusters := s_clusters s; s_events := s_events s |}.

Definition with_clusters (x : option V2ListClustersOK * option error) (s : Script) :=
  {| s_store := s_store s; s_agentConfig := s_agentConfig s;
     s_agentManifests := s_agentManifests s;
     s_installConfig := s_installConfig s; s_infraEnvs := s_infraEnvs s;
     s_clusters := x; s_events := s_events s |}.

Definition with_events
    (x : option (@V2ListEventsOK string) * option error) (s : Script) :=
  {| s_store := s_store s; s_agentConfig := s_agentConfig s;
     s_agentManifests := s_agentManifests s;
     s_installConfig := s_installConfig s; s_infraEnvs := s_infraEnvs s;
     s_clusters := s_clusters s; s_events := x |}.

Abbreviation World := (@World Script unit client_Config string).

(** The world before anything ran. *)
Definition initial (s : Script) : World :=
  {| env := s; heap := []; calls := []; logs := [] |}.

(** The world left by a construction from [s], and the pointer it returned
    (0 for the first object allocated). *)
Definition constructed (s : Script) : World :=
  (NewNodeZeroRestClient O (Some tt) "/assets" (initial s)).2.

Definition with_env (s : Script) (w : World) : World :=
  {| env := s; heap := heap w; calls := calls w; logs := logs w |}.

(** The client built from [script0], facing the outside [s], with an empty
    trace and an empty log. *)
Definition live (s : Script) : World :=
  {| env := s; heap := heap (constructed script0); calls := []; logs := [] |}.

(** The object at pointer 0 of [live s], and its handle. *)
Definition client0 : @NodeZeroRestClient unit client_Config :=
  built O (Some tt) "10.0.0.5" ["ssh-ed25519 AAAA"].

Definition handle0 : client_Config := {| URL := Some (endpoint O "10.0.0.5") |}.

(** One cluster and one infra-environment registered. *)
Definition script_one : Script :=
  with_clusters
    (Some {| V2ListClustersOK_Payload := [Some (mk_Cluster (Some uuid1))] |}, None)
    (with_infraEnvs
       (Some {| ListInfraEnvsOK_Payload := [Some (mk_InfraEnv (Some uuid2))] |}, None)
       script0).

(** Two of each. *)
Definition script_many : Script :=
  with_clusters
    (Some {| V2ListClustersOK_Payload :=
               [Some (mk_Cluster (Some uuid1)); Some (mk_Cluster (Some uuid2))] |},
       None)
    (with_infraEnvs
       (Some {| ListInfraEnvsOK_Payload :=
                  [Some (mk_InfraEnv (Some uuid1));
                   Some (mk_InfraEnv (Some uuid2))] |}, None)
       script0).

(** One of each, neither with an identifier. *)
Definition script_noid : Script :=
  with_clusters
    (Some {| V2ListClustersOK_Payload := [Some (mk_Cluster None)] |}, None)
    (with_infraEnvs
       (Some {| ListInfraEnvsOK_Payload := [Some (mk_InfraEnv None)] |}, None)
       script0).

Definition refused : error := errors.Opaque "dial tcp 10.0.0.5:8090: connect: connection refused".

(** The service is not reachable. *)
Definition script_down : Script :=
  with_clusters (None, Some refused)
    (with_infraEnvs (None, Some refused)
       (with_events (None, Some refused) script0)).

(** Two events recorded. *)
Definition script_events : Script :=
  with_events
    (Some {| V2ListEventsOK_Payload := ["registered"; "installing"] |}, None)
    script0.

Definition unreadable : error := errors.Opaque "permission denied".

(** Neither agent config nor host declarations. *)
Definition script_neither : Script := with_agentManifests (None, None) script0.



End Demo.

(** ** Vocabulary of the traces *)

Section Traces.

Context {Env context_Context Store AssistedInstall NMStateConfig Event : Type}.

Local Abbreviation M := (@M Env context_Context AssistedInstall NMStateConfig).
Local Abbreviation Call := (@Call context_Context AssistedInstall NMStateConfig).

(** The calls that go to the REST service. *)
Definition is_rest_call (c : Call) : bool :=
  match c with
  | Call_ListInfraEnvs _ _ => true
  | Call_V2ListClusters _ _ => true
  | Call_V2ListEvents _ _ _ => true
  | Call_NewStore _ => false
  | Call_Load _ => false
  | Call_RetrieveRendezvousIP _ _ => false
  end.

(** A computation that only adds calls satisfying [P] to the trace. *)
Definition emits (P : Call -> Prop) {A} (m : M A) : Prop :=
  forall w, exists added, calls (m w).2 = calls w ++ added /\ Forall P added.

(** A computation that writes no log line. *)
Definition keeps_logs {A} (m : M A) : Prop :=
  forall w, logs (m w).2 = logs w.

End Traces.

(** ** More scripts *)

Module Cases.

Import Demo.

Definition no_such_file : error := errors.Opaque "no such file or directory".

(** The asset store cannot be created. *)
Definition script_no_store : Script :=
  {| s_store := (None, Some unreadable);
     s_agentConfig := s_agentConfig script0;
     s_agentManifests := s_agentManifests script0;
     s_installConfig := s_installConfig script0;
     s_infraEnvs := s_infraEnvs script0;
     s_clusters := s_clusters script0;
     s_events := s_events script0 |}.

(** The loads of the agent config and of the install config fail. *)
Definition script_two_loads_fail : Script :=
  with_agentConfig (None, Some unreadable)
    (with_installConfig (None, Some no_such_file) script0).

(** No install config. *)
Definition script_no_installConfig : Script :=
  with_installConfig (None, None) script0.

(** A world whose only object is a zero-value client. *)
Definition zero_world : World :=
  {| env := script0; heap := [zero_NodeZeroRestClient]; calls := []; logs := [] |}.

(** One entry of each listing, and that entry nil. *)
Definition script_nil_entry : Script :=
  with_clusters
    (Some {| V2ListClustersOK_Payload := [None] |}, None)
    (with_infraEnvs
       (Some {| ListInfraEnvsOK_Payload := [None] |}, None)
       script0).

(** Host declarations present, the load of the install config fails. *)
Definition script_installConfig_fails : Script :=
  with_installConfig (None, Some unreadable) script0.

(** Neither agent config nor host declarations, and the load of the install
    config fails. *)
Definition script_neither_and_fails : Script :=
  with_installConfig (None, Some unreadable) script_neither.

(** The world after a second construction from [script0]. *)
Definition constructed_twice : World :=
  (NewNodeZeroRestClient O (Some tt) "/assets" (constructed script0)).2.

End Cases.

(** * The entry point ([cmd/openshift-install/main.go])

    [newRootCmd], [runRootCmd] and [installerMain], over the state they act
    on: the global [logrus] logger, the global [command.RootOpts], the
    process arguments, and what lies outside the file. *)

Module Main.

(** [logrus.Level], most severe first. *)
Inductive Level : Type :=
| PanicLevel | FatalLevel | ErrorLevel | WarnLevel
| InfoLevel | DebugLevel | TraceLevel.

(** The numeric value of a level. *)
Definition level_num (l : Level) : nat :=
  match l with
  | PanicLevel => 0 | FatalLevel => 1 | ErrorLevel => 2 | WarnLevel => 3
  | InfoLevel => 4 | DebugLevel => 5 | TraceLevel => 6
  end.

(** The two writers the file names. *)
Inductive Writer : Type := os_Stderr | io_Discard.

(** [logrus.TextFormatter], with the four fields the source sets. *)
Record TextFormatter : Type := mk_TextFormatter {
  ForceColors : bool;
  DisableTimestamp : bool;
  DisableLevelTruncation : bool;
  DisableQuote : bool
}.

(** [command.RootOpts], with the two fields the file binds flags to. *)
Record RootOptions : Type := mk_RootOptions {
  Dir : string;
  LogLevel : string
}.

(** The variable a string flag is bound to. *)
Inductive Target : Type := RootOpts_Dir | RootOpts_LogLevel.

(** A string flag as [StringVar] registers it. *)
Record Flag : Type := mk_Flag {
  flag_target : Target;
  flag_name : string;
  flag_value : string;
  flag_usage : string
}.

(** The subcommand constructors, in no particular order. *)
Inductive SubName : Type :=
| Create | Destroy | WaitFor | Gather | Analyze | Version
| Graph | CoreOS | Completion | Migrate | Explain | Agent.

Section Program.

(** [Hook] is [logrus.Hook]; [Ext] is the state of what lies outside the
    file. *)
Context {Hook Ext : Type}.

(** The global logger. *)
Record Logger : Type := mk_Logger {
  Out : Writer;
  Lvl : Level;
  Hooks : list Hook
}.

(** A line handed to the logger, with the hooks installed at that time. *)
Record Entry : Type := mk_Entry {
  e_level : Level;
  e_message : string;
  e_hooks : list Hook
}.

Record State : Type := mk_State {
  logger : Logger;
  RootOpts : RootOptions;
  entries : list Entry;
  Args : list string;
  stderr_terminal : bool;
  ext : Ext
}.

(** A computation returns, or ends the process with an exit code, or
    panics. *)
Inductive Outcome (A : Type) : Type :=
| Returned (a : A) (s : State)
| Exited (code : nat) (s : State)
| Panicked (s : State).

Arguments Returned {A} a s.
Arguments Exited {A} code s.
Arguments Panicked {A} s.

Definition M (A : Type) : Type := State -> Outcome A.

Definition ret {A} (a : A) : M A := fun s => Returned a s.

Definition bind {A B} (m : M A) (k : A -> M B) : M B :=
  fun s => match m s with
           | Returned a s' => k a s'
           | Exited code s' => Exited code s'
           | Panicked s' => Panicked s'
           end.

(** The state a computation leaves behind. *)
Definition final {A} (o : Outcome A) : State :=
  match o with
  | Returned _ s => s
  | Exited _ s => s
  | Panicked s => s
  end.

(** [cobra.Command], with the fields the source sets; [PersistentPreRun]
    is kept without its command argument, which [runRootCmd] does not
    read. *)
Inductive Command : Type := mk_Command {
  Use : string;
  Short : string;
  Long : string;
  PersistentPreRun : option (list string -> M unit);
  SilenceErrors : bool;
  SilenceUsage : bool;
  PersistentFlags : list Flag;
  commands : list Command
}.

(** What the file calls and does not define. *)
Record Deps : Type := mk_Deps {
  logrus_ParseLevel : string -> Level * option error;
  command_NewFileHookWithNewlineTruncate :
    Writer -> Level -> TextFormatter -> Hook;
  filepath_Base : string -> string;
  newSubCmd : SubName -> State -> Command * State;
  cobra_Execute : Command -> State -> Outcome (option error)
}.

End Program.

Arguments Returned {Hook Ext A} a s.
Arguments Exited {Hook Ext A} code s.
Arguments Panicked {Hook Ext A} s.

Declare Scope main_scope.
Delimit Scope main_scope with main.
Notation "'let*' x := m 'in' k" := (bind m (fun x => k))
  (at level 10, x pattern, m at level 100, k at level 200) : main_scope.
Notation "m ;; k" := (bind m (fun _ => k))
  (at level 100, k at level 200, right associativity) : main_scope.

Section Code.

Context {Hook Ext : Type}.
Variable D : @Deps Hook Ext.

Local Abbreviation State := (@State Hook Ext).
Local Abbreviation M := (@M Hook Ext).
Local Abbreviation Command := (@Command Hook Ext).
Local Abbreviation Logger := (@Logger Hook).

Local Open Scope main_scope.

Definition with_logger (f : Logger -> Logger) : M unit :=
  fun s => Returned tt
             {| logger := f (logger s); RootOpts := RootOpts s;
                entries := entries s; Args := Args s;
                stderr_terminal := stderr_terminal s; ext := ext s |}.

Definition logrus_SetOutput (out : Writer) : M unit :=
  with_logger (fun l => {| Out := out; Lvl := Lvl l; Hooks := Hooks l |}).

Definition logrus_SetLevel (lv : Level) : M unit :=
  with_logger (fun l => {| Out := Out l; Lvl := lv; Hooks := Hooks l |}).

Definition logrus_AddHook (h : Hook) : M unit :=
  with_logger (fun l => {| Out := Out l; Lvl := Lvl l; Hooks := Hooks l ++ [h] |}).

(** [logger.IsLevelEnabled] *)
Definition IsLevelEnabled (l : Logger) (lv : Level) : bool :=
  Nat.leb (level_num lv) (level_num (Lvl l)).

(** [logger.Log]: the line goes to the hooks and the output when its level
    is enabled. *)
Definition logrus_Log (lv : Level) (msg : string) : M unit :=
  fun s =>
    if IsLevelEnabled (logger s) lv
    then Returned tt
           {| logger := logger s; RootOpts := RootOpts s;
              entries := entries s ++ [mk_Entry lv msg (Hooks (logger s))];
              Args := Args s; stderr_terminal := stderr_terminal s;
              ext := ext s |}
    else Returned tt s.

(** [logger.Exit] *)
Definition logrus_Exit {A} (code : nat) : M A := fun s => Exited code s.

(** [logrus.Fatal(err)] *)
Definition logrus_Fatal (err : error) : M unit :=
  logrus_Log FatalLevel (errors.Error err) ;;
  logrus_Exit 1.

(** [logrus.Fatalf] with a format that ends in [%v] of an error. *)
Definition logrus_Fatalf (prefix : string) (err : error) : M unit :=
  logrus_Log FatalLevel (prefix +:+ errors.Error err) ;;
  logrus_Exit 1.

(** [terminal.IsTerminal(int(os.Stderr.Fd()))] *)
Definition terminal_IsTerminal_stderr : M bool :=
  fun s => Returned (stderr_terminal s) s.

Definition get_RootOpts : M RootOptions := fun s => Returned (RootOpts s) s.

(** [os.Args[0]]; out of range panics. *)
Definition os_Args_0 : M string :=
  fun s => match Args s !! 0 with
           | Some a => Returned a s
           | None => Panicked s
           end.

(** [runRootCmd] *)
Definition runRootCmd (args : list string) : M unit :=
  logrus_SetOutput io_Discard ;;
  logrus_SetLevel TraceLevel ;;
  let* opts := get_RootOpts in
  let (level0, err) := logrus_ParseLevel D (LogLevel opts) in
  let level := match err with
               | Some _ => InfoLevel
               | None => level0
               end in
  let* forceColors := terminal_IsTerminal_stderr in
  logrus_AddHook
    (command_NewFileHookWithNewlineTruncate D os_Stderr level
       {| ForceColors := forceColors;
          DisableTimestamp := true;
          DisableLevelTruncation := true;
          DisableQuote := true |}) ;;
  match err with
  | Some e => logrus_Fatal (errors.Wrap e "invalid log-level")
  | None => ret tt
  end.

(** [StringVar(&command.RootOpts.<target>, name, value, usage)]: the
    variable takes the default at once and the flag is registered. *)
Definition StringVar (t : Target) (name value usage : string) (cmd : Command)
  : M Command :=
  fun s =>
    Returned
      {| Use := Use cmd; Short := Short cmd; Long := Long cmd;
         PersistentPreRun := PersistentPreRun cmd;
         SilenceErrors := SilenceErrors cmd; SilenceUsage := SilenceUsage cmd;
         PersistentFlags := PersistentFlags cmd ++ [mk_Flag t name value usage];
         commands := commands cmd |}
      {| logger := logger s;
         RootOpts := match t with
                     | RootOpts_Dir =>
                         {| Dir := value; LogLevel := LogLevel (RootOpts s) |}
                     | RootOpts_LogLevel =>
                         {| Dir := Dir (RootOpts s); LogLevel := value |}
                     end;
         entries := entries s; Args := Args s;
         stderr_terminal := stderr_terminal s; ext := ext s |}.

(** The double quote. *)
Definition dq : string := String (Ascii.ascii_of_nat 34) EmptyString.

(** [newRootCmd] *)
Definition newRootCmd : M Command :=
  let* arg0 := os_Args_0 in
  let cmd :=
    {| Use := filepath_Base D arg0;
       Short := "Creates OpenShift clusters";
       Long := "";
       PersistentPreRun := Some runRootCmd;
       SilenceErrors := true;
       SilenceUsage := true;
       PersistentFlags := [];
       commands := [] |} in
  let* cmd := StringVar RootOpts_Dir "dir" "." "assets directory" cmd in
  let* cmd := StringVar RootOpts_LogLevel "log-level" "info"
                ("log level (e.g. " +:+ dq +:+ "debug | info | warn | error"
                 +:+ dq +:+ ")") cmd in
  ret cmd.

(** [rootCmd.AddCommand(subCmd)] *)
Definition AddCommand (sub : Command) (cmd : Command) : Command :=
  {| Use := Use cmd; Short := Short cmd; Long := Long cmd;
     PersistentPreRun := PersistentPreRun cmd;
     SilenceErrors := SilenceErrors cmd; SilenceUsage := SilenceUsage cmd;
     PersistentFlags := PersistentFlags cmd;
     commands := commands cmd ++ [sub] |}.

(** The slice literal of [installerMain]: the constructors run in the order
    they are written. *)
Definition subcommand_order : list SubName :=
  [Create; Destroy; WaitFor; Gather; Analyze; Version;
   Graph; CoreOS; Completion; Migrate; Explain; Agent].

Fixpoint build (names : list SubName) : M (list Command) :=
  match names with
  | [] => ret []
  | n :: rest =>
      let* c := (fun s => let (c, s') := newSubCmd D n s in Returned c s') in
      let* cs := build rest in
      ret (c :: cs)
  end.

(** [installerMain] *)
Definition installerMain : M unit :=
  let* rootCmd := newRootCmd in
  let* subCmds := build subcommand_order in
  let rootCmd := fold_left (fun cmd sub => AddCommand sub cmd) subCmds rootCmd in
  let* err := cobra_Execute D rootCmd in
  match err with
  | Some e => logrus_Fatalf "Error executing openshift-install: " e
  | None => ret tt
  end.

End Code.

(** A concrete instance: hooks are their three arguments, the level parser
    knows the seven lower-case names, subcommands are bare commands named
    after their constructor, and running the root command runs its
    [PersistentPreRun]. *)
Record FileHook : Type := mk_FileHook {
  hook_file : Writer;
  hook_level : Level;
  hook_formatter : TextFormatter
}.

Definition parse_level (lvl : string) : Level * option error :=
  if decide (lvl = "panic") then (PanicLevel, None)
  else if decide (lvl = "fatal") then (FatalLevel, None)
  else if decide (lvl = "error") then (ErrorLevel, None)
  else if decide (lvl = "warn") then (WarnLevel, None)
  else if decide (lvl = "info") then (InfoLevel, None)
  else if decide (lvl = "debug") then (DebugLevel, None)
  else if decide (lvl = "trace") then (TraceLevel, None)
  else (PanicLevel, Some (errors.Opaque ("not a valid logrus Level: " +:+ lvl))).

Definition sub_name (n : SubName) : string :=
  match n with
  | Create => "create" | Destroy => "destroy" | WaitFor => "wait-for"
  | Gather => "gather" | Analyze => "analyze" | Version => "version"
  | Graph => "graph" | CoreOS => "coreos" | Completion => "completion"
  | Migrate => "migrate" | Explain => "explain" | Agent => "agent"
  end.

Definition bare (name : string) : @Command FileHook unit :=
  {| Use := name; Short := ""; Long := ""; PersistentPreRun := None;
     SilenceErrors := false; SilenceUsage := false;
     PersistentFlags := []; commands := [] |}.

Definition demo : @Deps FileHook unit :=
  {| logrus_ParseLevel := parse_level;
     command_NewFileHookWithNewlineTruncate := mk_FileHook;
     filepath_Base := fun path => path;
     newSubCmd := fun n s => (bare (sub_name n), s);
     cobra_Execute := fun cmd s =>
       match PersistentPreRun cmd with
       | Some f => bind (f []) (fun _ => ret None) s
       | None => Returned None s
       end |}.

(** The process as it starts: the logger of [logrus] writes to stderr at
    info level and has no hook. *)
Definition start (level : string) : @State FileHook unit :=
  {| logger := {| Out := os_Stderr; Lvl := InfoLevel; Hooks := [] |};
     RootOpts := {| Dir := ""; LogLevel := level |};
     entries := [];
     Args := ["openshift-install"];
     stderr_terminal := false;
     ext := tt |}.

End Main.

(** * Properties *)

Section Properties.

Context {Env context_Context Store AssistedInstall NMStateConfig Event : Type}.
Variable O : @Outside Env context_Context Store AssistedInstall NMStateConfig Event.

Local Abbreviation World :=
  (@World Env context_Context AssistedInstall NMStateConfig).
Local Abbreviation NodeZeroRestClient :=
  (@NodeZeroRestClient context_Context AssistedInstall).
Local Abbreviation M := (@M Env context_Context AssistedInstall NMStateConfig).
Local Abbreviation Call := (@Call context_Context AssistedInstall NMStateConfig).
Local Abbreviation AgentManifests := (@AgentManifests NMStateConfig).

(** ** The primitives and the store of client objects *)

Lemma keeps_heap_ret {A} (a : A) : keeps_heap (ret a : M A).
Proof. intros w. reflexivity. Qed.

Lemma keeps_heap_panic {A} : keeps_heap (panic : M A).
Proof. intros w. reflexivity. Qed.

Lemma keeps_heap_bind {A B} (m : M A) (k : A -> M B) :
  keeps_heap m -> (forall a, keeps_heap (k a)) -> keeps_heap (bind m k).
Proof.
  intros Hm Hk w. unfold bind. specialize (Hm w).
  destruct (m w) as [[a|] w1]; simpl in Hm.
  - rewrite Hk. exact Hm.
  - exact Hm.
Qed.

Lemma keeps_heap_deref (p : ptr) : keeps_heap (deref p : M _).
Proof. intros w. reflexivity. Qed.

Lemma keeps_heap_nonnil {A} (o : option A) : keeps_heap (nonnil o : M A).
Proof. intros w. destruct o; reflexivity. Qed.

Lemma keeps_heap_index {A} (l : list A) (i : nat) :
  keeps_heap (index l i : M A).
Proof. apply keeps_heap_nonnil. Qed.

Lemma keeps_heap_outside {A} (c : Call) (h : Env -> A * Env) :
  keeps_heap (outside c h : M A).
Proof. intros w. unfold outside. destruct (h (env w)). reflexivity. Qed.

Lemma keeps_heap_log (lv : Level) (msg : string) :
  keeps_heap (log lv msg : M unit).
Proof. intros w. reflexivity. Qed.

Lemma keeps_heap_writes_only {A} (q : ptr) (m : M A) :
  keeps_heap m -> writes_only q m.
Proof. intros Hm w. split; [ | intros p _ ]; rewrite (Hm w); reflexivity. Qed.

Lemma writes_only_bind {A B} (q : ptr) (m : M A) (k : A -> M B) :
  writes_only q m -> (forall a, writes_only q (k a)) ->
  writes_only q (bind m k).
Proof.
  intros Hm Hk w. unfold bind. destruct (Hm w) as [Hlen Hm'].
  destruct (m w) as [[a|] w1]; simpl in *.
  - destruct (Hk a w1) as [Hlen' Hk']. split.
    + rewrite Hlen'. exact Hlen.
    + intros p Hp. rewrite (Hk' p Hp). apply Hm', Hp.
  - split; assumption.
Qed.

Lemma writes_only_assign (q : ptr)
    (f : NodeZeroRestClient -> NodeZeroRestClient) :
  writes_only q (assign q f : M unit).
Proof.
  intros w. unfold assign. destruct (heap w !! q) as [r|]; simpl.
  - split; [apply length_insert | intros p Hp].
    apply list_lookup_insert_ne. congruence.
  - split; [reflexivity | intros; reflexivity].
Qed.

(** Splits a goal on a computation along its binds and branches. *)
Ltac frame_step :=
  first
    [ apply keeps_heap_ret | apply keeps_heap_panic | apply keeps_heap_deref
    | apply keeps_heap_nonnil | apply keeps_heap_index
    | apply keeps_heap_outside | apply keeps_heap_log
    | apply keeps_heap_bind; [ | intros ? ]
    | match goal with
      | |- keeps_heap (match ?x with _ => _ end) => destruct x
      end ].

Lemma keeps_heap_IsRestAPILive (rest : ptr) : keeps_heap (IsRestAPILive O rest).
Proof.
  unfold IsRestAPILive, Installer_ListInfraEnvs. repeat frame_step.
Qed.

Lemma keeps_heap_GetRestAPIServiceBaseURL (rest : ptr) :
  keeps_heap (GetRestAPIServiceBaseURL rest : M _).
Proof. unfold GetRestAPIServiceBaseURL. repeat frame_step. Qed.

Lemma keeps_heap_GetInfraEnvEvents (rest : ptr) (i : option UUID) :
  keeps_heap (GetInfraEnvEvents O rest i).
Proof.
  unfold GetInfraEnvEvents, Events_V2ListEvents. repeat frame_step.
Qed.

Lemma keeps_heap_getClusterID (rest : ptr) : keeps_heap (getClusterID O rest).
Proof.
  unfold getClusterID, Installer_V2ListClusters, logrus_Debug, logrus_Infof.
  repeat frame_step.
Qed.

Lemma keeps_heap_getClusterInfraEnvID (rest : ptr) :
  keeps_heap (getClusterInfraEnvID O rest).
Proof.
  unfold getClusterInfraEnvID, Installer_ListInfraEnvs, logrus_Debug,
    logrus_Infof.
  repeat frame_step.
Qed.

(** ** Run equations of the methods on a live client *)

Section Methods.

Variables (rest : ptr) (r : NodeZeroRestClient) (c : AssistedInstall)
          (w : World).
Hypothesis Hrest : heap w !! rest = Some r.
Hypothesis Hc : Client r = Some c.

Lemma IsRestAPILive_run :
  IsRestAPILive O rest w =
  let '(res, err, e) := h_ListInfraEnvs O c (ctx r) (env w) in
  (Some (negb (not_nil err)),
   called w (Call_ListInfraEnvs c (ctx r)) e).
Proof using Hrest Hc.
  unfold IsRestAPILive, bind, deref, Installer_ListInfraEnvs, outside.
  rewrite Hrest, Hc. simpl.
  destruct (h_ListInfraEnvs O c (ctx r) (env w)) as [[res [e|]] e']; reflexivity.
Qed.

Lemma GetRestAPIServiceBaseURL_run :
  GetRestAPIServiceBaseURL rest w = (Some (URL (config r)), w).
Proof using Hrest.
  unfold GetRestAPIServiceBaseURL, bind, deref. rewrite Hrest. reflexivity.
Qed.

Lemma GetInfraEnvEvents_run (infraEnvID : option UUID) :
  GetInfraEnvEvents O rest infraEnvID w =
  let params := {| InfraEnvID := infraEnvID |} in
  let '(res, err, e) := h_V2ListEvents O c (ctx r) params (env w) in
  let w1 := called w (Call_V2ListEvents c (ctx r) params) e in
  match err, res with
  | Some x, _ => (Some ([], Some x), w1)
  | None, Some ok => (Some (V2ListEventsOK_Payload ok, None), w1)
  | None, None => (None, w1)
  end.
Proof using Hrest Hc.
  unfold GetInfraEnvEvents, bind, deref, Events_V2ListEvents, outside.
  rewrite Hrest, Hc. simpl.
  destruct (h_V2ListEvents O c (ctx r) _ (env w)) as [[[ok|] [e|]] e'];
    reflexivity.
Qed.

Lemma getClusterID_run :
  getClusterID O rest w =
  let '(res, err, e) := h_V2ListClusters O c (ctx r) (env w) in
  let w1 := called w (Call_V2ListClusters c (ctx r)) e in
  match err, res with
  | Some x, _ => (Some (None, Some x), w1)
  | None, None => (None, w1)
  | None, Some ok =>
      match V2ListClustersOK_Payload ok with
      | [] => (Some (None, None),
               logged w1 DebugLevel "cluster is not registered in rest API")
      | [Some x] => (Some (Cluster_ID x, None), w1)
      | [None] => (None, w1)
      | l => (Some (None, None),
              logged w1 InfoLevel
                ("found too many clusters. number of clusters found: "
                 +:+ format_d (length l)))
      end
  end.
Proof using Hrest Hc.
  unfold getClusterID, bind, deref, Installer_V2ListClusters, outside.
  rewrite Hrest, Hc. simpl.
  destruct (h_V2ListClusters O c (ctx r) (env w)) as [[[ok|] [e|]] e'];
    try reflexivity.
  simpl. destruct ok as [[|[x|] [|y l]]]; reflexivity.
Qed.

Lemma getClusterInfraEnvID_run :
  getClusterInfraEnvID O rest w =
  let '(res, err, e) := h_ListInfraEnvs O c (ctx r) (env w) in
  let w1 := called w (Call_ListInfraEnvs c (ctx r)) e in
  match err, res with
  | Some x, _ => (Some (None, Some x), w1)
  | None, None => (None, w1)
  | None, Some ok =>
      match ListInfraEnvsOK_Payload ok with
      | [] => (Some (None, None),
               logged w1 DebugLevel "infraenv is not registered in rest API")
      | [Some x] => (Some (InfraEnv_ID x, None), w1)
      | [None] => (None, w1)
      | l => (Some (None, None),
              logged w1 InfoLevel
                ("found too many infraenvs. number of infraenvs found: "
                 +:+ format_d (length l)))
      end
  end.
Proof using Hrest Hc.
  unfold getClusterInfraEnvID, bind, deref, Installer_ListInfraEnvs, outside.
  rewrite Hrest, Hc. simpl.
  destruct (h_ListInfraEnvs O c (ctx r) (env w)) as [[[ok|] [e|]] e'];
    try reflexivity.
  simpl. destruct ok as [[|[x|] [|y l]]]; reflexivity.
Qed.

End Methods.

(** ** Run equation of the constructor *)

Lemma lookup_fresh {A} (h : list A) (x : A) : (h ++ [x]) !! length h = Some x.
Proof. apply list_lookup_middle. reflexivity. Qed.

Lemma insert_fresh {A} (h : list A) (x y : A) :
  <[length h := y]> (h ++ [x]) = h ++ [y].
Proof.
  replace (length h) with (length h + 0) by lia.
  rewrite insert_app_r. reflexivity.
Qed.

(** Once the store exists, the constructor is determined by what the three
    loads and the derivation answer. *)
Lemma NewNodeZeroRestClient_run
    (ctx0 : option context_Context) (assetDir : string) (w : World)
    (st : Store) (e1 e2 e3 e4 : Env)
    (ac : option AgentConfig) (am : option AgentManifests)
    (ic : option InstallConfig) (ea em ei : option error)
    (H0 : h_NewStore O assetDir (env w) = (Some st, None, e1))
    (H1 : h_Load_AgentConfig O st e1 = (ac, ea, e2))
    (H2 : h_Load_AgentManifests O st e2 = (am, em, e3))
    (H3 : h_Load_InstallConfig O st e3 = (ic, ei, e4)) :
  NewNodeZeroRestClient O ctx0 assetDir w =
  let w4 : World :=
    {| env := e4; heap := heap w ++ [zero_NodeZeroRestClient];
       calls := calls w ++ load_calls assetDir;
       logs := logs w ++ load_failure_lines O ea em ei |} in
  if not_nil ea || not_nil em || not_nil ei
  then (Some (None, Some (errors.New
          "failed to load AgentConfig, NMStateConfig, or InstallConfig")), w4)
  else
    match resolution_inputs ac am with
    | None =>
        (Some (None, Some (errors.New
           "both AgentConfig and NMStateConfig are empty")), w4)
    | Some (cfg, nm) =>
        let '(ip, rerr, e5) := h_RetrieveRendezvousIP O cfg nm e4 in
        let w5 := called w4 (Call_RetrieveRendezvousIP cfg nm) e5 in
        match rerr with
        | Some x => (Some (None, Some x), w5)
        | None =>
            match ic with
            | Some i =>
                match InstallConfig_Config i with
                | Some tc =>
                    (Some (Some (length (heap w)), None),
                     with_heap w5 (heap w ++ [built O ctx0 ip [SSHKey tc]]))
                | None => (None, w5)
                end
            | None =>
                (Some (Some (length (heap w)), None),
                 with_heap w5 (heap w ++ [built O ctx0 ip []]))
            end
        end
    end.
Proof.
  unfold NewNodeZeroRestClient, bind, new_NodeZeroRestClient,
    assetstore_NewStore, Load_AgentConfig, Load_AgentManifests,
    Load_InstallConfig, outside, bind, nonnil, ret.
  simpl. rewrite H0. simpl. rewrite H1. simpl. rewrite H2. simpl. rewrite H3.
  simpl.
  destruct ea as [xa|], em as [xm|], ei as [xi|]; simpl;
    unfold load_failure_lines, load_calls; simpl;
    rewrite <- ?(assoc_L (++)); simpl; try reflexivity.
  rewrite app_nil_r.
  destruct ac as [a|], am as [m|]; simpl; try reflexivity.
  all: unfold image_RetrieveRendezvousIP, outside, called, with_heap; simpl.
  all: destruct (h_RetrieveRendezvousIP O _ _ e4) as [[ip [x|]] e5]; simpl;
    [reflexivity | ].
  all: destruct ic as [[[tc|]]|]; simpl; try reflexivity.
  all: repeat (unfold assign; simpl; rewrite ?lookup_fresh, ?insert_fresh; simpl).
  all: reflexivity.
Qed.

Lemma NewNodeZeroRestClient_store_error
    (ctx0 : option context_Context) (assetDir : string) (w : World)
    (st : option Store) (x : error) (e1 : Env)
    (H0 : h_NewStore O assetDir (env w) = (st, Some x, e1)) :
  (NewNodeZeroRestClient O ctx0 assetDir w).1
  = Some (None, Some (errors.Wrap x "failed to create asset store")).
Proof.
  unfold NewNodeZeroRestClient, bind, new_NodeZeroRestClient,
    assetstore_NewStore, outside.
  simpl. rewrite H0. reflexivity.
Qed.

Lemma NewNodeZeroRestClient_store_nil
    (ctx0 : option context_Context) (assetDir : string) (w : World) (e1 : Env)
    (H0 : h_NewStore O assetDir (env w) = (None, None, e1)) :
  (NewNodeZeroRestClient O ctx0 assetDir w).1 = None.
Proof.
  unfold NewNodeZeroRestClient, bind, new_NodeZeroRestClient,
    assetstore_NewStore, outside.
  simpl. rewrite H0. reflexivity.
Qed.

Ltac writes_step :=
  first
    [ apply writes_only_assign
    | apply writes_only_bind; [ | intros ? ]
    | match goal with
      | |- writes_only _ (match ?x with _ => _ end) => destruct x
      end
    | apply keeps_heap_writes_only;
      first [ apply keeps_heap_ret | apply keeps_heap_panic
            | apply keeps_heap_deref | apply keeps_heap_nonnil
            | apply keeps_heap_outside | apply keeps_heap_log ] ].

(** A construction allocates one object and writes to no other. *)
Lemma NewNodeZeroRestClient_preserves
    (ctx0 : option context_Context) (assetDir : string) (w : World) (p : ptr) :
  p < length (heap w) ->
  heap (NewNodeZeroRestClient O ctx0 assetDir w).2 !! p = heap w !! p.
Proof.
  intros Hp. unfold NewNodeZeroRestClient. unfold bind at 1. simpl.
  match goal with
  | |- heap (?m ?w0).2 !! _ = _ =>
      assert (Hw : writes_only (length (heap w)) m); [ | destruct (Hw w0) as [_ Hq] ]
  end.
  - unfold assetstore_NewStore, Load_AgentConfig, Load_AgentManifests,
      Load_InstallConfig, debug_load_failure, image_RetrieveRendezvousIP,
      logrus_Debug.
    cbv zeta. repeat writes_step.
  - rewrite Hq by lia. simpl. apply lookup_app_l, Hp.
Qed.

(** Every operation of the package leaves an existing object as it is. *)
Lemma run_op_preserves (o : Op) (w : World) (p : ptr) (r : NodeZeroRestClient) :
  heap w !! p = Some r -> heap (run_op O o w) !! p = Some r.
Proof.
  intros Hp. destruct o; simpl.
  - rewrite NewNodeZeroRestClient_preserves; [exact Hp | ].
    eapply lookup_lt_Some, Hp.
  - rewrite keeps_heap_IsRestAPILive. exact Hp.
  - rewrite keeps_heap_GetRestAPIServiceBaseURL. exact Hp.
  - rewrite keeps_heap_GetInfraEnvEvents. exact Hp.
  - rewrite keeps_heap_getClusterID. exact Hp.
  - rewrite keeps_heap_getClusterInfraEnvID. exact Hp.
Qed.

Lemma run_ops_preserves (ops : list Op) (w : World) (p : ptr)
    (r : NodeZeroRestClient) :
  heap w !! p = Some r -> heap (run_ops O ops w) !! p = Some r.
Proof.
  revert w. induction ops as [|o ops IH]; intros w Hp; simpl.
  - exact Hp.
  - apply IH, run_op_preserves, Hp.
Qed.

(** ** Frame of the per-call operations *)

(** C9: none of the five per-call operations changes the store of client
    objects, so no field of any client ([Client], [ctx], [config],
    [NodeZeroIP], [NodeSSHKey]) is modified, whether the operation returns a
    value, returns an error or panics; the client a pointer leads to before
    the call is the client it leads to after it. *)
Theorem per_call_operations_keep_the_client
    (rest : ptr) (infraEnvID : option UUID) (w : World) :
  heap (IsRestAPILive O rest w).2 = heap w /\
  heap (GetRestAPIServiceBaseURL rest w).2 = heap w /\
  heap (GetInfraEnvEvents O rest infraEnvID w).2 = heap w /\
  heap (getClusterID O rest w).2 = heap w /\
  heap (getClusterInfraEnvID O rest w).2 = heap w.
Proof.
  repeat split.
  - apply keeps_heap_IsRestAPILive.
  - apply (keeps_heap_GetRestAPIServiceBaseURL rest).
  - apply keeps_heap_GetInfraEnvEvents.
  - apply keeps_heap_getClusterID.
  - apply keeps_heap_getClusterInfraEnvID.
Qed.

(** ** Construction *)

Section Construction.

Variables (ctx0 : option context_Context) (assetDir : string) (w : World).
Variables (st : Store) (e1 e2 e3 e4 : Env).
Variables (ac : option AgentConfig) (am : option AgentManifests)
          (ic : option InstallConfig).

(** C2 as amended: when the store exists and the three loads return without
    error,
    for each of the four presence combinations of agent config and host
    declarations: with neither present the constructor issues no
    derivation call and returns no client and the error "both
    AgentConfig and NMStateConfig are empty"; with at least one present
    it issues exactly one derivation call, returns that call's error and
    no client if it fails, and if it succeeds with address [ip] returns a
    client whose address is [ip]. *)
Theorem resolution_attempted_iff_some_input_present
    (H0 : h_NewStore O assetDir (env w) = (Some st, None, e1))
    (H1 : h_Load_AgentConfig O st e1 = (ac, None, e2))
    (H2 : h_Load_AgentManifests O st e2 = (am, None, e3))
    (H3 : h_Load_InstallConfig O st e3 = (ic, None, e4)) :
  let run := NewNodeZeroRestClient O ctx0 assetDir w in
  (ac = None /\ am = None ->
   run.1 = Some (None, Some (errors.New
             "both AgentConfig and NMStateConfig are empty")) /\
   calls run.2 = calls w ++ load_calls assetDir) /\
  (ac <> None \/ am <> None ->
   exists cfg nm,
     calls run.2
     = calls w ++ load_calls assetDir ++ [Call_RetrieveRendezvousIP cfg nm] /\
     (forall ip x e5,
         h_RetrieveRendezvousIP O cfg nm e4 = (ip, Some x, e5) ->
         run.1 = Some (None, Some x)) /\
     (forall ip e5,
         h_RetrieveRendezvousIP O cfg nm e4 = (ip, None, e5) ->
         (forall i, ic = Some i -> InstallConfig_Config i <> None) ->
         exists p r,
           run.1 = Some (Some p, None) /\
           heap run.2 !! p = Some r /\ NodeZeroIP r = ip)).
Proof.
  intros run. subst run.
  rewrite (NewNodeZeroRestClient_run ctx0 assetDir w st e1 e2 e3 e4
             ac am ic None None None H0 H1 H2 H3).
  simpl. split.
  - intros [-> ->]. simpl. unfold load_failure_lines. simpl. split; reflexivity.
  - intros Hpresent.
    destruct (resolution_inputs ac am) as [[cfg nm]|] eqn:Hin.
    2:{ destruct ac, am; simpl in Hin; try discriminate.
        destruct Hpresent; congruence. }
    exists cfg, nm.
    destruct (h_RetrieveRendezvousIP O cfg nm e4) as [[ip0 rerr] e5'].
    split; [ | split ].
    + destruct rerr as [x|]; [ simpl; rewrite <- (assoc_L (++)); reflexivity | ].
      destruct ic as [[[tc|]]|]; simpl; rewrite <- (assoc_L (++)); reflexivity.
    + intros ip x e5 [= -> -> ->]. reflexivity.
    + intros ip e5 [= -> -> ->] Hic.
      destruct ic as [[[tc|]]|]; simpl.
      * eexists _, _. split; [reflexivity | ]. simpl.
        split; [apply lookup_fresh | reflexivity].
      * exfalso. exact (Hic _ eq_refl eq_refl).
      * eexists _, _. split; [reflexivity | ]. simpl.
        split; [apply lookup_fresh | reflexivity].
Qed.


(** C5 as amended: once the store exists, the three loads are each
    issued whatever the others answer; a load that returns an error
    makes the constructor return no client and the error "failed to load
    AgentConfig, NMStateConfig, or InstallConfig" before any derivation;
    with no load error, an asset that is merely absent does not stop the
    construction as long as agent config or host declarations are
    present: the derivation is called, and the constructor returns a
    client when the derivation succeeds. *)
Theorem loads_all_attempted_errors_abort
    (ea em ei : option error)
    (H0 : h_NewStore O assetDir (env w) = (Some st, None, e1))
    (H1 : h_Load_AgentConfig O st e1 = (ac, ea, e2))
    (H2 : h_Load_AgentManifests O st e2 = (am, em, e3))
    (H3 : h_Load_InstallConfig O st e3 = (ic, ei, e4)) :
  let run := NewNodeZeroRestClient O ctx0 assetDir w in
  (exists more, calls run.2 = calls w ++ load_calls assetDir ++ more) /\
  (ea <> None \/ em <> None \/ ei <> None ->
   run.1 = Some (None, Some (errors.New
             "failed to load AgentConfig, NMStateConfig, or InstallConfig")) /\
   calls run.2 = calls w ++ load_calls assetDir) /\
  (ea = None -> em = None -> ei = None ->
   ac <> None \/ am <> None ->
   (forall i, ic = Some i -> InstallConfig_Config i <> None) ->
   exists cfg nm,
     calls run.2
     = calls w ++ load_calls assetDir ++ [Call_RetrieveRendezvousIP cfg nm] /\
     forall ip e5,
       h_RetrieveRendezvousIP O cfg nm e4 = (ip, None, e5) ->
       exists p, run.1 = Some (Some p, None)).
Proof.
  intros run. subst run.
  rewrite (NewNodeZeroRestClient_run ctx0 assetDir w st e1 e2 e3 e4
             ac am ic ea em ei H0 H1 H2 H3).
  simpl. split; [ | split ].
  - destruct (not_nil ea || not_nil em || not_nil ei).
    { exists []. simpl. rewrite ?app_nil_r. reflexivity. }
    destruct (resolution_inputs ac am) as [[cfg nm]|].
    2:{ exists []. simpl. rewrite ?app_nil_r. reflexivity. }
    exists [Call_RetrieveRendezvousIP cfg nm].
    destruct (h_RetrieveRendezvousIP O cfg nm e4) as [[ip0 [x|]] e5'];
      try destruct ic as [[[tc|]]|]; simpl;
      rewrite <- (assoc_L (++)); reflexivity.
  - intros Herr.
    assert (Hb : not_nil ea || not_nil em || not_nil ei = true).
    { destruct ea, em, ei; simpl; try reflexivity.
      destruct Herr as [H|[H|H]]; congruence. }
    rewrite Hb. simpl. split; reflexivity.
  - intros -> -> -> Hpresent Hic. simpl.
    destruct (resolution_inputs ac am) as [[cfg nm]|] eqn:Hin.
    2:{ destruct ac, am; simpl in Hin; try discriminate.
        destruct Hpresent; congruence. }
    exists cfg, nm.
    destruct (h_RetrieveRendezvousIP O cfg nm e4) as [[ip0 rerr] e5'].
    split.
    + destruct rerr as [x|]; [ simpl; rewrite <- (assoc_L (++)); reflexivity | ].
      destruct ic as [[[tc|]]|]; simpl; rewrite <- (assoc_L (++)); reflexivity.
    + intros ip e5 [= -> -> ->].
      destruct ic as [[[tc|]]|]; simpl.
      * eexists. reflexivity.
      * exfalso. exact (Hic _ eq_refl eq_refl).
      * eexists. reflexivity.
Qed.

End Construction.

(** ** The endpoint *)

(** C7: when the constructor returns a client, there is an address [A]
    that a derivation call returned without error such that the client's
    address is [A] and its endpoint has scheme "http", host [A] joined
    with port "8090" and the fixed base path; after any sequence of
    operations of the package, [GetRestAPIServiceBaseURL] on that client
    returns this endpoint and leaves the world as it is: no call, no log
    line, no write. *)
Theorem endpoint_fixed_at_construction
    (ctx0 : option context_Context) (assetDir : string) (w w' : World) (p : ptr)
    (Hnew : NewNodeZeroRestClient O ctx0 assetDir w = (Some (Some p, None), w')) :
  exists (A : string) (r : NodeZeroRestClient),
    (exists cfg nm e, h_RetrieveRendezvousIP O cfg nm e = (A, None, env w')) /\
    heap w' !! p = Some r /\
    NodeZeroIP r = A /\
    config r
    = {| URL := Some {| Scheme := "http";
                        Host := net_JoinHostPort O A "8090";
                        Path := client_DefaultBasePath O |} |} /\
    forall ops : list Op,
      GetRestAPIServiceBaseURL p (run_ops O ops w')
      = (Some (Some {| Scheme := "http";
                       Host := net_JoinHostPort O A "8090";
                       Path := client_DefaultBasePath O |}),
         run_ops O ops w').
Proof.
  destruct (h_NewStore O assetDir (env w)) as [[[st|] [x|]] e1] eqn:H0.
  1,3: pose proof (NewNodeZeroRestClient_store_error ctx0 assetDir w _ x e1 H0)
    as Hx; rewrite Hnew in Hx; discriminate.
  2: pose proof (NewNodeZeroRestClient_store_nil ctx0 assetDir w e1 H0)
    as Hx; rewrite Hnew in Hx; discriminate.
  destruct (h_Load_AgentConfig O st e1) as [[ac ea] e2] eqn:H1.
  destruct (h_Load_AgentManifests O st e2) as [[am em] e3] eqn:H2.
  destruct (h_Load_InstallConfig O st e3) as [[ic ei] e4] eqn:H3.
  rewrite (NewNodeZeroRestClient_run ctx0 assetDir w st e1 e2 e3 e4
             ac am ic ea em ei H0 H1 H2 H3) in Hnew.
  simpl in Hnew.
  destruct (not_nil ea || not_nil em || not_nil ei); [discriminate | ].
  destruct (resolution_inputs ac am) as [[cfg nm]|]; [ | discriminate ].
  destruct (h_RetrieveRendezvousIP O cfg nm e4) as [[ip [x|]] e5] eqn:Hr;
    [discriminate | ].
  assert (Hex : exists keys,
             heap w' !! p = Some (built O ctx0 ip keys) /\ env w' = e5).
  { destruct ic as [[[tc|]]|]; [ | discriminate | ];
      injection Hnew as <- <-; eexists; simpl;
      (split; [apply lookup_fresh | reflexivity]). }
  destruct Hex as (keys & Hp & He).
  exists ip, (built O ctx0 ip keys).
  split; [ exists cfg, nm, e4; rewrite He; exact Hr | ].
  split; [ exact Hp | ].
  split; [ reflexivity | ].
  split; [ reflexivity | ].
  intros ops.
  rewrite (GetRestAPIServiceBaseURL_run p (built O ctx0 ip keys));
    [ reflexivity | ].
  apply run_ops_preserves, Hp.
Qed.

(** ** Identity lookups *)

(** C1 as amended: on a live client, when the cluster listing succeeds with
    payload [cl], [getClusterID] returns the identifier of the single entry
    and no error if [cl] has exactly one entry and that entry is not nil,
    and (nil, nil) if it has none or two or more; [getClusterInfraEnvID]
    does the same over the infra-environment listing.  Each lookup depends
    on its own listing only, and issues that one call and no other. *)
Theorem identity_lookups_one_zero_many
    (rest : ptr) (r : NodeZeroRestClient) (c : AssistedInstall) (w : World)
    (Hrest : heap w !! rest = Some r) (Hc : Client r = Some c) :
  (forall cl e,
      h_V2ListClusters O c (ctx r) (env w)
      = (Some {| V2ListClustersOK_Payload := cl |}, None, e) ->
      (forall x, cl = [Some x] ->
                 (getClusterID O rest w).1 = Some (Cluster_ID x, None)) /\
      (cl = [] -> (getClusterID O rest w).1 = Some (None, None)) /\
      (2 <= length cl -> (getClusterID O rest w).1 = Some (None, None)) /\
      calls (getClusterID O rest w).2
      = calls w ++ [Call_V2ListClusters c (ctx r)]) /\
  (forall il e,
      h_ListInfraEnvs O c (ctx r) (env w)
      = (Some {| ListInfraEnvsOK_Payload := il |}, None, e) ->
      (forall x, il = [Some x] ->
                 (getClusterInfraEnvID O rest w).1 = Some (InfraEnv_ID x, None)) /\
      (il = [] -> (getClusterInfraEnvID O rest w).1 = Some (None, None)) /\
      (2 <= length il ->
       (getClusterInfraEnvID O rest w).1 = Some (None, None)) /\
      calls (getClusterInfraEnvID O rest w).2
      = calls w ++ [Call_ListInfraEnvs c (ctx r)]).
Proof.
  split; intros l e Hl.
  - rewrite (getClusterID_run rest r c w Hrest Hc), Hl. simpl.
    repeat split.
    + intros x ->. reflexivity.
    + intros ->. reflexivity.
    + intros Hlen. destruct l as [|[x|] [|y l]]; simpl in Hlen;
        first [lia | reflexivity].
    + destruct l as [|[x|] [|y l]]; reflexivity.
  - rewrite (getClusterInfraEnvID_run rest r c w Hrest Hc), Hl. simpl.
    repeat split.
    + intros x ->. reflexivity.
    + intros ->. reflexivity.
    + intros Hlen. destruct l as [|[x|] [|y l]]; simpl in Hlen;
        first [lia | reflexivity].
    + destruct l as [|[x|] [|y l]]; reflexivity.
Qed.

(** C10: on a live client, a listing of exactly one entry whose [ID] is nil
    makes the lookup return (nil, nil), the very pair it returns for an
    empty listing and for a listing of two or more entries. *)
Theorem single_entry_without_id_is_unresolved
    (rest : ptr) (r : NodeZeroRestClient) (c : AssistedInstall) (w : World)
    (Hrest : heap w !! rest = Some r) (Hc : Client r = Some c) :
  (forall cl e,
      h_V2ListClusters O c (ctx r) (env w)
      = (Some {| V2ListClustersOK_Payload := cl |}, None, e) ->
      (exists x, cl = [Some x] /\ Cluster_ID x = None) \/ length cl <> 1 ->
      (getClusterID O rest w).1 = Some (None, None)) /\
  (forall il e,
      h_ListInfraEnvs O c (ctx r) (env w)
      = (Some {| ListInfraEnvsOK_Payload := il |}, None, e) ->
      (exists x, il = [Some x] /\ InfraEnv_ID x = None) \/ length il <> 1 ->
      (getClusterInfraEnvID O rest w).1 = Some (None, None)).
Proof.
  split; intros l e Hl Hcase.
  - rewrite (getClusterID_run rest r c w Hrest Hc), Hl. simpl.
    destruct Hcase as [(x & -> & Hx) | Hlen].
    + simpl. rewrite Hx. reflexivity.
    + destruct l as [|[x|] [|y l]]; simpl in *; first [lia | reflexivity].
  - rewrite (getClusterInfraEnvID_run rest r c w Hrest Hc), Hl. simpl.
    destruct Hcase as [(x & -> & Hx) | Hlen].
    + simpl. rewrite Hx. reflexivity.
    + destruct l as [|[x|] [|y l]]; simpl in *; first [lia | reflexivity].
Qed.

(** C8 as amended: on a live client, when the cluster listing succeeds with
    payload [cl], [getClusterID] writes exactly one line at info level that
    cites the count if [cl] has two or more entries, writes nothing if it
    has exactly one, and writes exactly one line at debug level if it has
    none. *)
Theorem getClusterID_log_lines
    (rest : ptr) (r : NodeZeroRestClient) (c : AssistedInstall) (w : World)
    (cl : list (option models_Cluster)) (e : Env)
    (Hrest : heap w !! rest = Some r) (Hc : Client r = Some c)
    (Hcl : h_V2ListClusters O c (ctx r) (env w)
           = (Some {| V2ListClustersOK_Payload := cl |}, None, e)) :
  (2 <= length cl ->
   logs (getClusterID O rest w).2
   = logs w ++ [mk_LogEntry InfoLevel
                  ("found too many clusters. number of clusters found: "
                   +:+ format_d (length cl))]) /\
  (length cl = 1 -> logs (getClusterID O rest w).2 = logs w) /\
  (length cl = 0 ->
   logs (getClusterID O rest w).2
   = logs w ++ [mk_LogEntry DebugLevel "cluster is not registered in rest API"]).
Proof.
  rewrite (getClusterID_run rest r c w Hrest Hc), Hcl. simpl.
  destruct cl as [|[x|] [|y l]]; simpl; repeat split; intros;
    first [lia | reflexivity].
Qed.

(** ** Liveness probe *)

(** C4: on a live client, whatever the infra-environment listing call
    answers, [IsRestAPILive] returns a boolean (it does not panic and hands
    no error on), true exactly when the call's error is nil; the probe
    issues the listing call once and does nothing else. *)
Theorem IsRestAPILive_boolean
    (rest : ptr) (r : NodeZeroRestClient) (c : AssistedInstall) (w : World)
    (Hrest : heap w !! rest = Some r) (Hc : Client r = Some c) :
  exists b : bool,
    IsRestAPILive O rest w
    = (Some b,
       called w (Call_ListInfraEnvs c (ctx r))
              (h_ListInfraEnvs O c (ctx r) (env w)).2) /\
    (b = true <-> (h_ListInfraEnvs O c (ctx r) (env w)).1.2 = None).
Proof.
  rewrite (IsRestAPILive_run rest r c w Hrest Hc).
  destruct (h_ListInfraEnvs O c (ctx r) (env w)) as [[res [x|]] e]; simpl.
  - exists false. split; [reflexivity | split; discriminate].
  - exists true. split; [reflexivity | split; reflexivity].
Qed.

(** ** Event retrieval *)

(** C6: on a live client, for every infra-environment identifier, when the
    event-list call fails [GetInfraEnvEvents] returns a nil list and that
    very error; when it succeeds it returns the payload of the response as
    it is, empty or not, and a nil error. *)
Theorem GetInfraEnvEvents_passes_through
    (rest : ptr) (r : NodeZeroRestClient) (c : AssistedInstall) (w : World)
    (infraEnvID : option UUID)
    (Hrest : heap w !! rest = Some r) (Hc : Client r = Some c) :
  (forall res x e,
      h_V2ListEvents O c (ctx r) {| InfraEnvID := infraEnvID |} (env w)
      = (res, Some x, e) ->
      (GetInfraEnvEvents O rest infraEnvID w).1 = Some ([], Some x)) /\
  (forall payload e,
      h_V2ListEvents O c (ctx r) {| InfraEnvID := infraEnvID |} (env w)
      = (Some {| V2ListEventsOK_Payload := payload |}, None, e) ->
      (GetInfraEnvEvents O rest infraEnvID w).1 = Some (payload, None)).
Proof.
  split.
  - intros res x e H.
    rewrite (GetInfraEnvEvents_run rest r c w Hrest Hc). simpl. rewrite H.
    reflexivity.
  - intros payload e H.
    rewrite (GetInfraEnvEvents_run rest r c w Hrest Hc). simpl. rewrite H.
    reflexivity.
Qed.

End Properties.

(** * The properties on the scripted world *)

Section Scripted.

Import Demo.

Example format_d_2 : format_d 2 = "2".
Proof. reflexivity. Qed.

(** One cluster and one infra-environment registered: each lookup returns
    the identifier of its own entry. *)
Lemma identity_lookups_witness :
  heap (live script_one) !! 0 = Some client0 /\
  Client client0 = Some handle0 /\
  (getClusterID O 0 (live script_one)).1 = Some (Some uuid1, None) /\
  (getClusterInfraEnvID O 0 (live script_one)).1 = Some (Some uuid2, None).
Proof.
  destruct (identity_lookups_one_zero_many O 0 client0 handle0
              (live script_one) eq_refl eq_refl) as [Hcl Hie].
  split; [reflexivity | ]. split; [reflexivity | ]. split.
  - destruct (Hcl [Some (mk_Cluster (Some uuid1))] script_one eq_refl) as [H _].
    exact (H _ eq_refl).
  - destruct (Hie [Some (mk_InfraEnv (Some uuid2))] script_one eq_refl) as [H _].
    exact (H _ eq_refl).
Defined.

(** One entry of each, without identifier: both lookups return (nil, nil). *)
Lemma single_entry_without_id_witness :
  heap (live script_noid) !! 0 = Some client0 /\
  Client client0 = Some handle0 /\
  (getClusterID O 0 (live script_noid)).1 = Some (None, None) /\
  (getClusterInfraEnvID O 0 (live script_noid)).1 = Some (None, None).
Proof.
  destruct (single_entry_without_id_is_unresolved O 0 client0 handle0
              (live script_noid) eq_refl eq_refl) as [Hcl Hie].
  split; [reflexivity | ]. split; [reflexivity | ]. split.
  - apply (Hcl [Some (mk_Cluster None)] script_noid eq_refl).
    left. exists (mk_Cluster None). split; reflexivity.
  - apply (Hie [Some (mk_InfraEnv None)] script_noid eq_refl).
    left. exists (mk_InfraEnv None). split; reflexivity.
Defined.

(** An empty cluster listing makes [getClusterID] write a line: the log,
    empty before the call, holds one debug entry after it. *)
Lemma empty_listing_writes_a_debug_line :
  h_V2ListClusters O handle0 (Some tt) script0
  = (Some {| V2ListClustersOK_Payload := [] |}, None, script0) /\
  (getClusterID O 0 (live script0)).1 = Some (None, None) /\
  logs (live script0) = [] /\
  logs (getClusterID O 0 (live script0)).2
  = [mk_LogEntry DebugLevel "cluster is not registered in rest API"] /\
  logs (getClusterID O 0 (live script0)).2 <> logs (live script0).
Proof.
  repeat split; try reflexivity. discriminate.
Qed.

(** Two clusters listed: one info line that cites the count 2. *)
Lemma getClusterID_log_lines_witness :
  heap (live script_many) !! 0 = Some client0 /\
  Client client0 = Some handle0 /\
  logs (getClusterID O 0 (live script_many)).2
  = [mk_LogEntry InfoLevel
       "found too many clusters. number of clusters found: 2"].
Proof.
  destruct (getClusterID_log_lines O 0 client0 handle0 (live script_many)
              [Some (mk_Cluster (Some uuid1)); Some (mk_Cluster (Some uuid2))]
              script_many
              eq_refl eq_refl eq_refl) as [Hmany _].
  split; [reflexivity | ]. split; [reflexivity | ].
  apply Hmany. simpl. lia.
Defined.

(** The service refuses the connection: the probe returns false; it
    answers: the probe returns true. *)
Lemma IsRestAPILive_witness :
  heap (live script_down) !! 0 = Some client0 /\
  Client client0 = Some handle0 /\
  (IsRestAPILive O 0 (live script_down)).1 = Some false /\
  (IsRestAPILive O 0 (live script0)).1 = Some true.
Proof.
  split; [reflexivity | ]. split; [reflexivity | ]. split.
  - destruct (IsRestAPILive_boolean O 0 client0 handle0 (live script_down)
                eq_refl eq_refl) as (b & Hrun & Hb).
    rewrite Hrun. simpl. destruct b; [ | reflexivity ].
    destruct Hb as [Hb _]. specialize (Hb eq_refl). discriminate Hb.
  - destruct (IsRestAPILive_boolean O 0 client0 handle0 (live script0)
                eq_refl eq_refl) as (b & Hrun & Hb).
    rewrite Hrun. simpl. destruct Hb as [_ Hb]. rewrite (Hb eq_refl).
    reflexivity.
Defined.

(** The error of a refused connection comes back as it is; two recorded
    events come back as they are. *)
Lemma GetInfraEnvEvents_witness :
  heap (live script_down) !! 0 = Some client0 /\
  Client client0 = Some handle0 /\
  (GetInfraEnvEvents O 0 (Some uuid2) (live script_down)).1
  = Some ([], Some refused) /\
  (GetInfraEnvEvents O 0 (Some uuid2) (live script_events)).1
  = Some (["registered"; "installing"], None).
Proof.
  split; [reflexivity | ]. split; [reflexivity | ]. split.
  - destruct (GetInfraEnvEvents_passes_through O 0 client0 handle0
                (live script_down) (Some uuid2) eq_refl eq_refl) as [Herr _].
    exact (Herr None refused script_down eq_refl).
  - destruct (GetInfraEnvEvents_passes_through O 0 client0 handle0
                (live script_events) (Some uuid2) eq_refl eq_refl) as [_ Hok].
    exact (Hok _ script_events eq_refl).
Defined.

(** Neither input present: no client and the configuration-missing error;
    host declarations alone: construction goes through the derivation. *)
Lemma resolution_attempted_witness :
  h_NewStore O "/assets" (env (initial script_neither))
  = (Some tt, None, script_neither) /\
  h_Load_AgentConfig O tt script_neither = (None, None, script_neither) /\
  h_Load_AgentManifests O tt script_neither = (None, None, script_neither) /\
  h_Load_InstallConfig O tt script_neither
  = ((s_installConfig script0).1, None, script_neither) /\
  (NewNodeZeroRestClient O (Some tt) "/assets" (initial script_neither)).1
  = Some (None, Some (errors.New "both AgentConfig and NMStateConfig are empty")) /\
  exists cfg nm,
    calls (NewNodeZeroRestClient O (Some tt) "/assets" (initial script0)).2
    = load_calls "/assets" ++ [Call_RetrieveRendezvousIP cfg nm].
Proof.
  do 4 (split; [reflexivity | ]). split.
  - destruct (resolution_attempted_iff_some_input_present O (Some tt) "/assets"
                (initial script_neither) tt script_neither script_neither
                script_neither script_neither None None _
                eq_refl eq_refl eq_refl eq_refl) as [Hnone _].
    exact (proj1 (Hnone (conj eq_refl eq_refl))).
  - destruct (resolution_attempted_iff_some_input_present O (Some tt) "/assets"
                (initial script0) tt script0 script0 script0 script0
                None _ _ eq_refl eq_refl eq_refl eq_refl) as [_ Hsome].
    destruct Hsome as (cfg & nm & Hcalls & _).
    + right. discriminate.
    + exists cfg, nm. exact Hcalls.
Defined.


(** The agent config absent without error: a client is returned.  The
    same assets with the load of the agent config failing, or with the load
    of the install config failing: no client, and the load error. *)
Lemma one_failed_load_aborts_construction :
  (NewNodeZeroRestClient O (Some tt) "/assets" (initial script0)).1
  = Some (Some 0, None) /\
  (NewNodeZeroRestClient O (Some tt) "/assets"
     (initial (with_agentConfig (None, Some unreadable) script0))).1
  = Some (None, Some (errors.New
            "failed to load AgentConfig, NMStateConfig, or InstallConfig")) /\
  (NewNodeZeroRestClient O (Some tt) "/assets"
     (initial (with_installConfig (None, Some unreadable) script0))).1
  = Some (None, Some (errors.New
            "failed to load AgentConfig, NMStateConfig, or InstallConfig")).
Proof. repeat split. Qed.

(** The load of the agent config fails: the two other loads are issued all
    the same, and the constructor returns the load error. *)
Lemma loads_all_attempted_witness :
  let s := with_agentConfig (None, Some unreadable) script0 in
  h_NewStore O "/assets" (env (initial s)) = (Some tt, None, s) /\
  calls (NewNodeZeroRestClient O (Some tt) "/assets" (initial s)).2
  = load_calls "/assets" /\
  (NewNodeZeroRestClient O (Some tt) "/assets" (initial s)).1
  = Some (None, Some (errors.New
            "failed to load AgentConfig, NMStateConfig, or InstallConfig")).
Proof.
  intros s. split; [reflexivity | ].
  destruct (loads_all_attempted_errors_abort O (Some tt) "/assets" (initial s)
              tt s s s s _ _ _ _ _ _ eq_refl eq_refl eq_refl eq_refl)
    as (_ & Herr & _).
  destruct Herr as [Hres Hcalls].
  - left. discriminate.
  - split; [exact Hcalls | exact Hres].
Defined.

(** The scenario of the spec: agent config absent, two host declarations,
    the first at 10.0.0.5. *)
Lemma endpoint_witness :
  NewNodeZeroRestClient O (Some tt) "/assets" (initial script0)
  = (Some (Some 0, None), constructed script0) /\
  exists A r,
    heap (constructed script0) !! 0 = Some r /\
    NodeZeroIP r = A /\
    config r = {| URL := Some {| Scheme := "http";
                                 Host := JoinHostPort A "8090";
                                 Path := "/api/assisted-install" |} |}.
Proof.
  split; [reflexivity | ].
  destruct (endpoint_fixed_at_construction O (Some tt) "/assets"
              (initial script0) (constructed script0) 0 eq_refl)
    as (A & r & _ & Hp & HA & Hcfg & _).
  exists A, r. split; [exact Hp | ]. split; [exact HA | exact Hcfg].
Defined.

Example endpoint_of_the_scenario :
  GetRestAPIServiceBaseURL 0 (constructed script0)
  = (Some (Some {| Scheme := "http"; Host := "10.0.0.5:8090";
                   Path := "/api/assisted-install" |}),
     constructed script0).
Proof. reflexivity. Qed.

End Scripted.

(** * Further properties of [rest.go] *)

Section Traces_of_the_code.

Context {Env context_Context Store AssistedInstall NMStateConfig Event : Type}.
Variable O : @Outside Env context_Context Store AssistedInstall NMStateConfig Event.

Local Abbreviation World :=
  (@World Env context_Context AssistedInstall NMStateConfig).
Local Abbreviation NodeZeroRestClient :=
  (@NodeZeroRestClient context_Context AssistedInstall).
Local Abbreviation M := (@M Env context_Context AssistedInstall NMStateConfig).
Local Abbreviation Call := (@Call context_Context AssistedInstall NMStateConfig).
Local Abbreviation AgentManifests := (@AgentManifests NMStateConfig).

(** ** What the primitives add to the trace *)

Section Emits.

Variable P : Call -> Prop.

Lemma emits_nothing {A} (m : M A) :
  (forall w, calls (m w).2 = calls w) -> emits P m.
Proof.
  intros Hm w. exists []. rewrite Hm, app_nil_r. split; [reflexivity | constructor].
Qed.

Lemma emits_ret {A} (a : A) : emits P (ret a : M A).
Proof. apply emits_nothing. reflexivity. Qed.

Lemma emits_panic {A} : emits P (panic : M A).
Proof. apply emits_nothing. reflexivity. Qed.

Lemma emits_nonnil {A} (o : option A) : emits P (nonnil o : M A).
Proof. apply emits_nothing. intros w. destruct o; reflexivity. Qed.

Lemma emits_deref (p : ptr) : emits P (deref p : M _).
Proof. apply emits_nothing. reflexivity. Qed.

Lemma emits_new : emits P (new_NodeZeroRestClient : M _).
Proof. apply emits_nothing. reflexivity. Qed.

Lemma emits_assign (p : ptr) (f : NodeZeroRestClient -> NodeZeroRestClient) :
  emits P (assign p f : M _).
Proof.
  apply emits_nothing. intros w. unfold assign.
  destruct (heap w !! p); reflexivity.
Qed.

Lemma emits_log (lv : Level) (msg : string) : emits P (log lv msg : M _).
Proof. apply emits_nothing. reflexivity. Qed.

Lemma emits_outside {A} (c : Call) (h : Env -> A * Env) :
  P c -> emits P (outside c h : M A).
Proof.
  intros Hc w. exists [c]. unfold outside. destruct (h (env w)). simpl.
  split; [reflexivity | repeat constructor; exact Hc].
Qed.

Lemma emits_bind {A B} (m : M A) (k : A -> M B) :
  emits P m -> (forall a, emits P (k a)) -> emits P (bind m k).
Proof.
  intros Hm Hk w. unfold bind. destruct (Hm w) as (l1 & H1 & F1).
  destruct (m w) as [[a|] w1]; simpl in *.
  - destruct (Hk a w1) as (l2 & H2 & F2). exists (l1 ++ l2).
    rewrite H2, H1, (assoc_L (++)). split; [reflexivity | ].
    apply Forall_app. split; assumption.
  - exists l1. split; assumption.
Qed.

End Emits.

Ltac emits_step :=
  first
    [ apply emits_ret | apply emits_panic | apply emits_nonnil
    | apply emits_deref | apply emits_new | apply emits_assign
    | apply emits_log
    | apply emits_outside; reflexivity
    | apply emits_bind; [ | intros ? ]
    | match goal with
      | |- emits _ (match ?x with _ => _ end) => destruct x
      end ].

(** ** What the primitives write to the log *)

Lemma keeps_logs_ret {A} (a : A) : keeps_logs (ret a : M A).
Proof. intros w. reflexivity. Qed.

Lemma keeps_logs_panic {A} : keeps_logs (panic : M A).
Proof. intros w. reflexivity. Qed.

Lemma keeps_logs_nonnil {A} (o : option A) : keeps_logs (nonnil o : M A).
Proof. intros w. destruct o; reflexivity. Qed.

Lemma keeps_logs_deref (p : ptr) : keeps_logs (deref p : M _).
Proof. intros w. reflexivity. Qed.

Lemma keeps_logs_outside {A} (c : Call) (h : Env -> A * Env) :
  keeps_logs (outside c h : M A).
Proof. intros w. unfold outside. destruct (h (env w)). reflexivity. Qed.

Lemma keeps_logs_bind {A B} (m : M A) (k : A -> M B) :
  keeps_logs m -> (forall a, keeps_logs (k a)) -> keeps_logs (bind m k).
Proof.
  intros Hm Hk w. unfold bind. specialize (Hm w).
  destruct (m w) as [[a|] w1]; simpl in Hm.
  - rewrite Hk. exact Hm.
  - exact Hm.
Qed.

Ltac silent_step :=
  first
    [ apply keeps_logs_ret | apply keeps_logs_panic | apply keeps_logs_nonnil
    | apply keeps_logs_deref | apply keeps_logs_outside
    | apply keeps_logs_bind; [ | intros ? ]
    | match goal with
      | |- keeps_logs (match ?x with _ => _ end) => destruct x
      end ].

(** ** The constructor stays off the network *)

(** X1: in every world and whatever the outside answers, every call
    [NewNodeZeroRestClient] adds to the trace is a call to the asset store or
    to the rendezvous derivation: the constructor sends no request to the REST
    service. *)
Theorem construction_sends_no_request
    (ctx0 : option context_Context) (assetDir : string) (w : World) :
  exists added : list Call,
    calls (NewNodeZeroRestClient O ctx0 assetDir w).2 = calls w ++ added /\
    Forall (fun c => is_rest_call c = false) added.
Proof.
  revert w.
  change (emits (fun c : Call => is_rest_call c = false)
            (NewNodeZeroRestClient O ctx0 assetDir)).
  unfold NewNodeZeroRestClient, assetstore_NewStore, Load_AgentConfig,
    Load_AgentManifests, Load_InstallConfig, debug_load_failure,
    image_RetrieveRendezvousIP, logrus_Debug.
  cbv zeta. repeat emits_step.
Qed.

(** ** The silent operations *)

(** X2: in every world and whatever the service answers, the liveness
    probe, the endpoint accessor and the event retrieval write no log line,
    whether they return a value, an error or panic. *)
Theorem probe_accessor_and_events_are_silent
    (rest : ptr) (infraEnvID : option UUID) (w : World) :
  logs (IsRestAPILive O rest w).2 = logs w /\
  logs (GetRestAPIServiceBaseURL rest w).2 = logs w /\
  logs (GetInfraEnvEvents O rest infraEnvID w).2 = logs w.
Proof.
  split; [ | split ]; revert w.
  - change (keeps_logs (IsRestAPILive O rest)).
    unfold IsRestAPILive, Installer_ListInfraEnvs. repeat silent_step.
  - change (keeps_logs (GetRestAPIServiceBaseURL rest : M _)).
    unfold GetRestAPIServiceBaseURL. repeat silent_step.
  - change (keeps_logs (GetInfraEnvEvents O rest infraEnvID)).
    unfold GetInfraEnvEvents, Events_V2ListEvents. repeat silent_step.
Qed.

(** ** More run equations *)

Lemma NewNodeZeroRestClient_store_error_run
    (ctx0 : option context_Context) (assetDir : string) (w : World)
    (st : option Store) (x : error) (e1 : Env)
    (H0 : h_NewStore O assetDir (env w) = (st, Some x, e1)) :
  NewNodeZeroRestClient O ctx0 assetDir w
  = (Some (None, Some (errors.Wrap x "failed to create asset store")),
     {| env := e1; heap := heap w ++ [zero_NodeZeroRestClient];
        calls := calls w ++ [Call_NewStore assetDir]; logs := logs w |}).
Proof.
  unfold NewNodeZeroRestClient, bind, new_NodeZeroRestClient,
    assetstore_NewStore, outside.
  simpl. rewrite H0. reflexivity.
Qed.

(** A construction that returns a client returns the pointer to the one
    object it allocated. *)
Lemma NewNodeZeroRestClient_success
    (ctx0 : option context_Context) (assetDir : string) (w w' : World) (p : ptr)
    (Hnew : NewNodeZeroRestClient O ctx0 assetDir w = (Some (Some p, None), w')) :
  p = length (heap w) /\
  exists ip keys, heap w' = heap w ++ [built O ctx0 ip keys].
Proof.
  destruct (h_NewStore O assetDir (env w)) as [[[st|] [x|]] e1] eqn:H0.
  1,3: rewrite (NewNodeZeroRestClient_store_error_run ctx0 assetDir w _ x e1 H0)
    in Hnew; discriminate.
  2: pose proof (NewNodeZeroRestClient_store_nil O ctx0 assetDir w e1 H0)
    as Hx; rewrite Hnew in Hx; discriminate.
  destruct (h_Load_AgentConfig O st e1) as [[ac ea] e2] eqn:H1.
  destruct (h_Load_AgentManifests O st e2) as [[am em] e3] eqn:H2.
  destruct (h_Load_InstallConfig O st e3) as [[ic ei] e4] eqn:H3.
  rewrite (NewNodeZeroRestClient_run O ctx0 assetDir w st e1 e2 e3 e4
             ac am ic ea em ei H0 H1 H2 H3) in Hnew.
  simpl in Hnew.
  destruct (not_nil ea || not_nil em || not_nil ei); [discriminate | ].
  destruct (resolution_inputs ac am) as [[cfg nm]|]; [ | discriminate ].
  destruct (h_RetrieveRendezvousIP O cfg nm e4) as [[ip [x|]] e5];
    [discriminate | ].
  destruct ic as [[[tc|]]|]; [ | discriminate | ];
    injection Hnew as <- <-; (split; [reflexivity | ]); eexists _, _; reflexivity.
Qed.

Section Live.

Variables (rest : ptr) (r : NodeZeroRestClient) (c : AssistedInstall)
          (w : World).
Hypothesis Hrest : heap w !! rest = Some r.
Hypothesis Hc : Client r = Some c.

Lemma calls_IsRestAPILive :
  calls (IsRestAPILive O rest w).2 = calls w ++ [Call_ListInfraEnvs c (ctx r)].
Proof using Hrest Hc.
  rewrite (IsRestAPILive_run O rest r c w Hrest Hc).
  destruct (h_ListInfraEnvs O c (ctx r) (env w)) as [[res err] e]. reflexivity.
Qed.

Lemma calls_getClusterInfraEnvID :
  calls (getClusterInfraEnvID O rest w).2
  = calls w ++ [Call_ListInfraEnvs c (ctx r)].
Proof using Hrest Hc.
  rewrite (getClusterInfraEnvID_run O rest r c w Hrest Hc).
  destruct (h_ListInfraEnvs O c (ctx r) (env w)) as [[[[l]|] [x|]] e];
    try reflexivity.
  destruct l as [|[a|] [|b l]]; reflexivity.
Qed.

Lemma calls_getClusterID :
  calls (getClusterID O rest w).2 = calls w ++ [Call_V2ListClusters c (ctx r)].
Proof using Hrest Hc.
  rewrite (getClusterID_run O rest r c w Hrest Hc).
  destruct (h_V2ListClusters O c (ctx r) (env w)) as [[[[l]|] [x|]] e];
    try reflexivity.
  destruct l as [|[a|] [|b l]]; reflexivity.
Qed.

Lemma calls_GetInfraEnvEvents (i : option UUID) :
  calls (GetInfraEnvEvents O rest i w).2
  = calls w ++ [Call_V2ListEvents c (ctx r) {| InfraEnvID := i |}].
Proof using Hrest Hc.
  rewrite (GetInfraEnvEvents_run O rest r c w Hrest Hc). simpl.
  destruct (h_V2ListEvents O c (ctx r) _ (env w)) as [[[ok|] [x|]] e];
    reflexivity.
Qed.

End Live.

(** ** Failures during construction *)

(** X3: when the asset store cannot be created, [NewNodeZeroRestClient]
    returns no client and the store's error wrapped under "failed to create
    asset store"; it has issued the store call and nothing else: no load, no
    derivation, no log line. *)
Theorem store_failure_stops_construction
    (ctx0 : option context_Context) (assetDir : string) (w : World)
    (st : option Store) (x : error) (e1 : Env)
    (H0 : h_NewStore O assetDir (env w) = (st, Some x, e1)) :
  let run := NewNodeZeroRestClient O ctx0 assetDir w in
  run.1 = Some (None, Some (errors.Wrap x "failed to create asset store")) /\
  errors.Error (errors.Wrap x "failed to create asset store")
  = "failed to create asset store: " +:+ errors.Error x /\
  calls run.2 = calls w ++ [Call_NewStore assetDir] /\
  logs run.2 = logs w.
Proof.
  intros run. subst run.
  rewrite (NewNodeZeroRestClient_store_error_run ctx0 assetDir w st x e1 H0).
  repeat split.
Qed.

(** X4: once the store exists, the log lines a construction writes are
    exactly one debug line per failed load, in the order agent config, host
    declarations, install config, each reading "failed to load", the name of
    the asset, a colon and the cause; a construction whose loads all return
    without error writes no log line. *)
Theorem construction_logs_the_failed_loads
    (ctx0 : option context_Context) (assetDir : string) (w : World)
    (st : Store) (e1 e2 e3 e4 : Env)
    (ac : option AgentConfig) (am : option AgentManifests)
    (ic : option InstallConfig) (ea em ei : option error)
    (H0 : h_NewStore O assetDir (env w) = (Some st, None, e1))
    (H1 : h_Load_AgentConfig O st e1 = (ac, ea, e2))
    (H2 : h_Load_AgentManifests O st e2 = (am, em, e3))
    (H3 : h_Load_InstallConfig O st e3 = (ic, ei, e4)) :
  let line (err : option error) (a : AssetKind) : list LogEntry :=
    match err with
    | Some x => [mk_LogEntry DebugLevel
                   ("failed to load " +:+ Name O a +:+ ": " +:+ errors.Error x)]
    | None => []
    end in
  logs (NewNodeZeroRestClient O ctx0 assetDir w).2
  = logs w ++ line ea AgentConfigAsset ++ line em AgentManifestsAsset
    ++ line ei InstallConfigAsset.
Proof.
  intros line. subst line.
  rewrite (NewNodeZeroRestClient_run O ctx0 assetDir w st e1 e2 e3 e4
             ac am ic ea em ei H0 H1 H2 H3).
  simpl.
  assert (Hlines :
            load_failure_lines O ea em ei
            = match ea with
              | Some x => [mk_LogEntry DebugLevel
                             ("failed to load " +:+ Name O AgentConfigAsset
                              +:+ ": " +:+ errors.Error x)]
              | None => []
              end
              ++ match em with
                 | Some x => [mk_LogEntry DebugLevel
                                ("failed to load " +:+ Name O AgentManifestsAsset
                                 +:+ ": " +:+ errors.Error x)]
                 | None => []
                 end
              ++ match ei with
                 | Some x => [mk_LogEntry DebugLevel
                                ("failed to load " +:+ Name O InstallConfigAsset
                                 +:+ ": " +:+ errors.Error x)]
                 | None => []
                 end).
  { unfold load_failure_lines. simpl.
    destruct ea, em, ei; reflexivity. }
  rewrite <- Hlines.
  destruct (not_nil ea || not_nil em || not_nil ei); [reflexivity | ].
  destruct (resolution_inputs ac am) as [[cfg nm]|]; [ | reflexivity ].
  destruct (h_RetrieveRendezvousIP O cfg nm e4) as [[ip [x|]] e5];
    [reflexivity | ].
  destruct ic as [[[tc|]]|]; reflexivity.
Qed.

(** X5: a construction that returns a client has captured the SSH key of
    the install config in [NodeSSHKey] when the install config is present,
    and left [NodeSSHKey] empty when it is absent. *)
Theorem ssh_key_captured
    (ctx0 : option context_Context) (assetDir : string) (w w' : World) (p : ptr)
    (st : Store) (e1 e2 e3 e4 : Env)
    (ac : option AgentConfig) (am : option AgentManifests)
    (ic : option InstallConfig) (ea em ei : option error)
    (H0 : h_NewStore O assetDir (env w) = (Some st, None, e1))
    (H1 : h_Load_AgentConfig O st e1 = (ac, ea, e2))
    (H2 : h_Load_AgentManifests O st e2 = (am, em, e3))
    (H3 : h_Load_InstallConfig O st e3 = (ic, ei, e4))
    (Hnew : NewNodeZeroRestClient O ctx0 assetDir w = (Some (Some p, None), w')) :
  exists r : NodeZeroRestClient,
    heap w' !! p = Some r /\
    (ic = None -> NodeSSHKey r = []) /\
    (forall i tc, ic = Some i -> InstallConfig_Config i = Some tc ->
                  NodeSSHKey r = [SSHKey tc]).
Proof.
  rewrite (NewNodeZeroRestClient_run O ctx0 assetDir w st e1 e2 e3 e4
             ac am ic ea em ei H0 H1 H2 H3) in Hnew.
  simpl in Hnew.
  destruct (not_nil ea || not_nil em || not_nil ei); [discriminate | ].
  destruct (resolution_inputs ac am) as [[cfg nm]|]; [ | discriminate ].
  destruct (h_RetrieveRendezvousIP O cfg nm e4) as [[ip [x|]] e5];
    [discriminate | ].
  destruct ic as [[[tc|]]|]; [ | discriminate | ]; injection Hnew as <- <-.
  - exists (built O ctx0 ip [SSHKey tc]). simpl.
    split; [apply lookup_fresh | ]. split; [discriminate | ].
    intros i tc' [= <-] [= <-]. reflexivity.
  - exists (built O ctx0 ip []). simpl.
    split; [apply lookup_fresh | ]. split; [reflexivity | ].
    intros i tc' [=].
Qed.

(** X6: two constructions that both return a client return two different
    pointers, and the second leaves the object of the first as it was. *)
Theorem constructions_do_not_share_a_client
    (ctx1 ctx2 : option context_Context) (dir1 dir2 : string)
    (w w1 w2 : World) (p1 p2 : ptr)
    (Hnew1 : NewNodeZeroRestClient O ctx1 dir1 w = (Some (Some p1, None), w1))
    (Hnew2 : NewNodeZeroRestClient O ctx2 dir2 w1 = (Some (Some p2, None), w2)) :
  p1 <> p2 /\ heap w2 !! p1 = heap w1 !! p1.
Proof.
  destruct (NewNodeZeroRestClient_success ctx1 dir1 w w1 p1 Hnew1)
    as (Hp1 & ip1 & k1 & Hh1).
  destruct (NewNodeZeroRestClient_success ctx2 dir2 w1 w2 p2 Hnew2)
    as (Hp2 & _).
  assert (Hlen : length (heap w1) = S (length (heap w))).
  { rewrite Hh1, length_app. simpl. lia. }
  split; [lia | ].
  pose proof (NewNodeZeroRestClient_preserves O ctx2 dir2 w1 p1) as Hpres.
  rewrite Hnew2 in Hpres. apply Hpres. lia.
Qed.

(** ** The requests of a constructed client *)

(** X7: a client returned by [NewNodeZeroRestClient] with context [ctx0]
    sends every request through the handle that [client.New] made from its
    endpoint and with the context [ctx0]: after any sequence of operations of
    the package, each of the four requesting methods adds exactly one call to
    the trace, on that handle and with that context, and the event retrieval
    passes the identifier it was given. *)
Theorem requests_carry_the_construction_context
    (ctx0 : option context_Context) (assetDir : string) (w w' : World) (p : ptr)
    (Hnew : NewNodeZeroRestClient O ctx0 assetDir w = (Some (Some p, None), w')) :
  exists A : string,
    let c := client_New O {| URL := Some {| Scheme := "http";
                                            Host := net_JoinHostPort O A "8090";
                                            Path := client_DefaultBasePath O |} |} in
    forall ops : list Op,
      let w2 := run_ops O ops w' in
      calls (IsRestAPILive O p w2).2 = calls w2 ++ [Call_ListInfraEnvs c ctx0] /\
      calls (getClusterInfraEnvID O p w2).2
      = calls w2 ++ [Call_ListInfraEnvs c ctx0] /\
      calls (getClusterID O p w2).2 = calls w2 ++ [Call_V2ListClusters c ctx0] /\
      forall i, calls (GetInfraEnvEvents O p i w2).2
                = calls w2 ++ [Call_V2ListEvents c ctx0 {| InfraEnvID := i |}].
Proof.
  destruct (NewNodeZeroRestClient_success ctx0 assetDir w w' p Hnew)
    as (-> & ip & keys & Hh).
  exists ip. intros c ops w2.
  assert (Hp : heap w2 !! length (heap w) = Some (built O ctx0 ip keys)).
  { apply run_ops_preserves. rewrite Hh. apply lookup_fresh. }
  repeat split.
  - exact (calls_IsRestAPILive _ _ c w2 Hp eq_refl).
  - exact (calls_getClusterInfraEnvID _ _ c w2 Hp eq_refl).
  - exact (calls_getClusterID _ _ c w2 Hp eq_refl).
  - intros i. exact (calls_GetInfraEnvEvents _ _ c w2 Hp eq_refl i).
Qed.

(** ** Errors and edges of the lookups *)

(** X8: on a live client, when the listing call of a lookup returns an
    error, the lookup returns a nil identifier and that very error; it has
    issued that one call and written no log line. *)
Theorem lookup_errors_pass_through
    (rest : ptr) (r : NodeZeroRestClient) (c : AssistedInstall) (w : World)
    (Hrest : heap w !! rest = Some r) (Hc : Client r = Some c) :
  (forall res x e,
      h_V2ListClusters O c (ctx r) (env w) = (res, Some x, e) ->
      getClusterID O rest w
      = (Some (None, Some x), called w (Call_V2ListClusters c (ctx r)) e)) /\
  (forall res x e,
      h_ListInfraEnvs O c (ctx r) (env w) = (res, Some x, e) ->
      getClusterInfraEnvID O rest w
      = (Some (None, Some x), called w (Call_ListInfraEnvs c (ctx r)) e)).
Proof.
  split; intros res x e H.
  - rewrite (getClusterID_run O rest r c w Hrest Hc), H. reflexivity.
  - rewrite (getClusterInfraEnvID_run O rest r c w Hrest Hc), H. reflexivity.
Qed.

(** X9: on a live client, when the infra-environment listing succeeds with
    payload [il], [getClusterInfraEnvID] writes exactly one line at info
    level that cites the count if [il] has two or more entries, nothing if it
    has exactly one, and exactly one line at debug level if it has none. *)
Theorem getClusterInfraEnvID_log_lines
    (rest : ptr) (r : NodeZeroRestClient) (c : AssistedInstall) (w : World)
    (il : list (option models_InfraEnv)) (e : Env)
    (Hrest : heap w !! rest = Some r) (Hc : Client r = Some c)
    (Hil : h_ListInfraEnvs O c (ctx r) (env w)
           = (Some {| ListInfraEnvsOK_Payload := il |}, None, e)) :
  (2 <= length il ->
   logs (getClusterInfraEnvID O rest w).2
   = logs w ++ [mk_LogEntry InfoLevel
                  ("found too many infraenvs. number of infraenvs found: "
                   +:+ format_d (length il))]) /\
  (length il = 1 -> logs (getClusterInfraEnvID O rest w).2 = logs w) /\
  (length il = 0 ->
   logs (getClusterInfraEnvID O rest w).2
   = logs w ++ [mk_LogEntry DebugLevel "infraenv is not registered in rest API"]).
Proof.
  rewrite (getClusterInfraEnvID_run O rest r c w Hrest Hc), Hil. simpl.
  destruct il as [|[x|] [|y l]]; simpl; repeat split; intros;
    first [lia | reflexivity].
Qed.

(** X10: on a live client and in one world, the liveness probe and the
    infra-environment lookup read the same listing call: if the lookup
    returns an error the probe returns false, and if the lookup returns
    without error the probe returns true. *)
Theorem probe_agrees_with_infraenv_lookup
    (rest : ptr) (r : NodeZeroRestClient) (c : AssistedInstall) (w : World)
    (Hrest : heap w !! rest = Some r) (Hc : Client r = Some c) :
  (forall id x, (getClusterInfraEnvID O rest w).1 = Some (id, Some x) ->
                (IsRestAPILive O rest w).1 = Some false) /\
  (forall id, (getClusterInfraEnvID O rest w).1 = Some (id, None) ->
              (IsRestAPILive O rest w).1 = Some true).
Proof.
  rewrite (getClusterInfraEnvID_run O rest r c w Hrest Hc),
    (IsRestAPILive_run O rest r c w Hrest Hc).
  destruct (h_ListInfraEnvs O c (ctx r) (env w)) as [[[[l]|] [x|]] e]; simpl.
  - split; [reflexivity | intros id [=]].
  - destruct l as [|[a|] [|b l]]; simpl;
      (split; [intros id x [=] | first [reflexivity | intros id [=]]]).
  - split; [reflexivity | intros id [=]].
  - split; [intros id x [=] | intros id [=]].
Qed.

(** X11: a requesting method called through a pointer that leads to no
    object, or on a client whose [Client] is nil (the zero value), panics
    before anything happens: no call is issued, no log line written, no
    object touched. *)
Theorem requests_panic_without_a_client
    (rest : ptr) (infraEnvID : option UUID) (w : World)
    (Hnone : heap w !! rest = None \/
             exists r, heap w !! rest = Some r /\ Client r = None) :
  IsRestAPILive O rest w = (None, w) /\
  GetInfraEnvEvents O rest infraEnvID w = (None, w) /\
  getClusterID O rest w = (None, w) /\
  getClusterInfraEnvID O rest w = (None, w).
Proof.
  unfold IsRestAPILive, GetInfraEnvEvents, getClusterID, getClusterInfraEnvID,
    bind, deref.
  destruct Hnone as [-> | (r & -> & Hc)].
  - repeat split.
  - rewrite Hc. repeat split.
Qed.

End Traces_of_the_code.

(** * The further properties on the scripted world *)

Section More_scripted.

Import Demo Cases.

(** The store cannot be created: the wrapped error, and the store call
    alone in the trace. *)
Lemma store_failure_witness :
  h_NewStore O "/assets" (env (initial script_no_store))
  = (None, Some unreadable, script_no_store) /\
  (NewNodeZeroRestClient O (Some tt) "/assets" (initial script_no_store)).1
  = Some (None, Some (errors.Wrap unreadable "failed to create asset store")) /\
  calls (NewNodeZeroRestClient O (Some tt) "/assets" (initial script_no_store)).2
  = [Call_NewStore "/assets"].
Proof.
  split; [reflexivity | ].
  destruct (store_failure_stops_construction O (Some tt) "/assets"
              (initial script_no_store) None unreadable script_no_store eq_refl)
    as (Hres & _ & Hcalls & _).
  split; [exact Hres | exact Hcalls].
Defined.

(** Two loads fail: two debug lines, in the order of the source. *)
Lemma failed_loads_witness :
  h_NewStore O "/assets" (env (initial script_two_loads_fail))
  = (Some tt, None, script_two_loads_fail) /\
  logs (NewNodeZeroRestClient O (Some tt) "/assets"
          (initial script_two_loads_fail)).2
  = [mk_LogEntry DebugLevel "failed to load Agent Config: permission denied";
     mk_LogEntry DebugLevel
       "failed to load Install Config: no such file or directory"].
Proof.
  split; [reflexivity | ].
  exact (construction_logs_the_failed_loads O (Some tt) "/assets"
           (initial script_two_loads_fail) tt
           script_two_loads_fail script_two_loads_fail
           script_two_loads_fail script_two_loads_fail
           _ _ _ _ _ _ eq_refl eq_refl eq_refl eq_refl).
Defined.

(** The install config of [script0] carries a key: the client holds it. *)
Lemma ssh_key_witness :
  NewNodeZeroRestClient O (Some tt) "/assets" (initial script0)
  = (Some (Some 0, None), constructed script0) /\
  exists r, heap (constructed script0) !! 0 = Some r /\
            NodeSSHKey r = ["ssh-ed25519 AAAA"].
Proof.
  split; [reflexivity | ].
  destruct (ssh_key_captured O (Some tt) "/assets" (initial script0)
              (constructed script0) 0 tt script0 script0 script0 script0
              _ _ _ _ _ _ eq_refl eq_refl eq_refl eq_refl eq_refl)
    as (r & Hr & _ & Hkey).
  exists r. split; [exact Hr | ].
  exact (Hkey _ _ eq_refl eq_refl).
Defined.

(** Two constructions in a row: pointers 0 and 1. *)
Lemma two_constructions_witness :
  NewNodeZeroRestClient O (Some tt) "/assets" (initial script0)
  = (Some (Some 0, None), constructed script0) /\
  NewNodeZeroRestClient O (Some tt) "/assets" (constructed script0)
  = (Some (Some 1, None), constructed_twice) /\
  0 <> 1 /\
  heap constructed_twice !! 0 = heap (constructed script0) !! 0.
Proof.
  assert (H1 : NewNodeZeroRestClient O (Some tt) "/assets" (initial script0)
               = (Some (Some 0, None), constructed script0))
    by (vm_compute; reflexivity).
  assert (H2 : NewNodeZeroRestClient O (Some tt) "/assets" (constructed script0)
               = (Some (Some 1, None), constructed_twice))
    by (vm_compute; reflexivity).
  split; [exact H1 | ]. split; [exact H2 | ].
  exact (constructions_do_not_share_a_client O (Some tt) (Some tt)
           "/assets" "/assets" (initial script0) (constructed script0)
           constructed_twice 0 1 H1 H2).
Defined.

(** The client built from [script0] probes through its own handle and
    context. *)
Lemma request_context_witness :
  NewNodeZeroRestClient O (Some tt) "/assets" (initial script0)
  = (Some (Some 0, None), constructed script0) /\
  exists c, calls (IsRestAPILive O 0 (constructed script0)).2
            = calls (constructed script0) ++ [Call_ListInfraEnvs c (Some tt)].
Proof.
  split; [reflexivity | ].
  destruct (requests_carry_the_construction_context O (Some tt) "/assets"
              (initial script0) (constructed script0) 0 eq_refl) as (A & H).
  eexists. exact (proj1 (H [])).
Defined.

(** The service refuses the connection: both lookups return that error. *)
Lemma lookup_errors_witness :
  heap (live script_down) !! 0 = Some client0 /\
  Client client0 = Some handle0 /\
  (getClusterID O 0 (live script_down)).1 = Some (None, Some refused) /\
  (getClusterInfraEnvID O 0 (live script_down)).1 = Some (None, Some refused).
Proof.
  split; [reflexivity | ]. split; [reflexivity | ].
  destruct (lookup_errors_pass_through O 0 client0 handle0 (live script_down)
              eq_refl eq_refl) as [Hcl Hie].
  split.
  - rewrite (Hcl None refused script_down eq_refl). reflexivity.
  - rewrite (Hie None refused script_down eq_refl). reflexivity.
Defined.

(** Two infra-environments listed: one info line that cites the count 2. *)
Lemma getClusterInfraEnvID_log_lines_witness :
  heap (live script_many) !! 0 = Some client0 /\
  Client client0 = Some handle0 /\
  logs (getClusterInfraEnvID O 0 (live script_many)).2
  = [mk_LogEntry InfoLevel
       "found too many infraenvs. number of infraenvs found: 2"].
Proof.
  destruct (getClusterInfraEnvID_log_lines O 0 client0 handle0 (live script_many)
              [Some (mk_InfraEnv (Some uuid1)); Some (mk_InfraEnv (Some uuid2))]
              script_many
              eq_refl eq_refl eq_refl) as [Hmany _].
  split; [reflexivity | ]. split; [reflexivity | ].
  apply Hmany. simpl. lia.
Defined.

(** The lookup fails when the service is down, and the probe says so. *)
Lemma probe_agrees_witness :
  heap (live script_down) !! 0 = Some client0 /\
  Client client0 = Some handle0 /\
  (getClusterInfraEnvID O 0 (live script_down)).1 = Some (None, Some refused) /\
  (IsRestAPILive O 0 (live script_down)).1 = Some false.
Proof.
  split; [reflexivity | ]. split; [reflexivity | ]. split; [reflexivity | ].
  destruct (probe_agrees_with_infraenv_lookup O 0 client0 handle0
              (live script_down) eq_refl eq_refl) as [Herr _].
  exact (Herr None refused eq_refl).
Defined.

(** A zero-value client: the probe panics and the world is as it was. *)
Lemma zero_client_witness :
  heap zero_world !! 0 = Some zero_NodeZeroRestClient /\
  Client (zero_NodeZeroRestClient : @NodeZeroRestClient unit client_Config)
  = None /\
  IsRestAPILive O 0 zero_world = (None, zero_world).
Proof.
  split; [reflexivity | ]. split; [reflexivity | ].
  refine (proj1 (requests_panic_without_a_client O 0 None zero_world _)).
  right. exists zero_NodeZeroRestClient. split; reflexivity.
Defined.

(** A listing of exactly one entry, and that entry nil: the lookups panic
    instead of returning an identifier. *)
Lemma nil_entry_makes_the_lookups_panic :
  h_V2ListClusters O handle0 (Some tt) script_nil_entry
  = (Some {| V2ListClustersOK_Payload := [None] |}, None, script_nil_entry) /\
  h_ListInfraEnvs O handle0 (Some tt) script_nil_entry
  = (Some {| ListInfraEnvsOK_Payload := [None] |}, None, script_nil_entry) /\
  length (V2ListClustersOK_Payload {| V2ListClustersOK_Payload := [None] |}) = 1 /\
  (getClusterID O 0 (live script_nil_entry)).1 = None /\
  (getClusterInfraEnvID O 0 (live script_nil_entry)).1 = None.
Proof. repeat split. Qed.

(** Host declarations present and the load of the install config failing:
    no derivation is called, and the constructor returns the load error.
    Neither input present and the same load failing: the error is the load
    error, not the one for missing configuration. *)
Lemma failed_load_skips_the_resolution :
  s_agentManifests script_installConfig_fails
  = (Some {| NMStateConfigs := ["10.0.0.5"; "10.0.0.6"] |}, None) /\
  calls (NewNodeZeroRestClient O (Some tt) "/assets"
           (initial script_installConfig_fails)).2
  = load_calls "/assets" /\
  (NewNodeZeroRestClient O (Some tt) "/assets"
     (initial script_installConfig_fails)).1
  = Some (None, Some (errors.New
            "failed to load AgentConfig, NMStateConfig, or InstallConfig")) /\
  s_agentConfig script_neither_and_fails = (None, None) /\
  s_agentManifests script_neither_and_fails = (None, None) /\
  (NewNodeZeroRestClient O (Some tt) "/assets"
     (initial script_neither_and_fails)).1
  = Some (None, Some (errors.New
            "failed to load AgentConfig, NMStateConfig, or InstallConfig")) /\
  (NewNodeZeroRestClient O (Some tt) "/assets"
     (initial script_neither_and_fails)).1
  <> Some (None, Some (errors.New
             "both AgentConfig and NMStateConfig are empty")).
Proof. repeat split. discriminate. Qed.

End More_scripted.

(** * Properties of the entry point *)

Module MainProperties.

Import Main.

Section Entry.

Context {Hook Ext : Type}.
Variable D : @Deps Hook Ext.

Local Abbreviation State := (@State Hook Ext).
Local Abbreviation Command := (@Command Hook Ext).

(** The hook [runRootCmd] installs at level [lv]. *)
Local Abbreviation stderr_hook lv colors :=
  (command_NewFileHookWithNewlineTruncate D os_Stderr lv
     {| ForceColors := colors; DisableTimestamp := true;
        DisableLevelTruncation := true; DisableQuote := true |}).

(** The run of [runRootCmd] on a level that parses. *)
Lemma runRootCmd_returns
    (args : list string) (s : State) (l : Level)
    (Hparse : logrus_ParseLevel D (LogLevel (RootOpts s)) = (l, None)) :
  runRootCmd D args s
  = Returned tt
      {| logger :=
           {| Out := io_Discard; Lvl := TraceLevel;
              Hooks := Hooks (logger s) ++ [stderr_hook l (stderr_terminal s)] |};
         RootOpts := RootOpts s; entries := entries s; Args := Args s;
         stderr_terminal := stderr_terminal s; ext := ext s |}.
Proof.
  unfold runRootCmd, bind, logrus_SetOutput, logrus_SetLevel, with_logger,
    get_RootOpts, terminal_IsTerminal_stderr, logrus_AddHook.
  simpl. rewrite Hparse. reflexivity.
Qed.

(** X12: when the configured log level parses, [runRootCmd] returns
    normally: the logger itself discards its output and lets every level
    through, one more hook writes to stderr at the parsed level, and nothing
    else changes: no line is logged, the options are as they were. *)
Theorem runRootCmd_valid_level
    (args : list string) (s : State) (l : Level)
    (Hparse : logrus_ParseLevel D (LogLevel (RootOpts s)) = (l, None)) :
  exists s' : State,
    runRootCmd D args s = Returned tt s' /\
    logger s'
    = {| Out := io_Discard; Lvl := TraceLevel;
         Hooks := Hooks (logger s) ++ [stderr_hook l (stderr_terminal s)] |} /\
    entries s' = entries s /\
    RootOpts s' = RootOpts s.
Proof.
  rewrite (runRootCmd_returns args s l Hparse).
  eexists. split; [reflexivity | ]. simpl. repeat split.
Qed.

(** X13: when the configured log level does not parse, [runRootCmd] ends
    the process with exit code 1; before that it has installed the stderr
    hook at info level, whatever level the parser returned beside its error,
    and the one line it logs, at fatal level, reads "invalid log-level", a
    colon and the parser's error, and is handed to the logger when that hook
    is already installed. *)
Theorem runRootCmd_invalid_level
    (args : list string) (s : State) (l : Level) (e : error)
    (Hparse : logrus_ParseLevel D (LogLevel (RootOpts s)) = (l, Some e)) :
  exists s' : State,
    runRootCmd D args s = Exited 1 s' /\
    logger s'
    = {| Out := io_Discard; Lvl := TraceLevel;
         Hooks := Hooks (logger s)
                  ++ [stderr_hook InfoLevel (stderr_terminal s)] |} /\
    entries s'
    = entries s
      ++ [mk_Entry FatalLevel ("invalid log-level: " +:+ errors.Error e)
            (Hooks (logger s) ++ [stderr_hook InfoLevel (stderr_terminal s)])].
Proof.
  unfold runRootCmd, bind, logrus_SetOutput, logrus_SetLevel, with_logger,
    get_RootOpts, terminal_IsTerminal_stderr, logrus_AddHook, logrus_Fatal,
    logrus_Log, logrus_Exit, bind.
  simpl. rewrite Hparse. simpl.
  eexists. split; [reflexivity | ]. simpl. repeat split.
Qed.

(** X14: when the process has a first argument and the level parser accepts
    "info" as level [l], building the root command and then running its own
    [PersistentPreRun], with no flag parsed in between, returns normally
    with the assets directory "." and the stderr hook at level [l],
    whatever the two options held before. *)
Theorem defaults_of_the_root_command
    (args : list string) (s : State) (a : string) (rest : list string) (l : Level)
    (Hargs : Args s = a :: rest)
    (Hinfo : logrus_ParseLevel D "info" = (l, None)) :
  exists (cmd : Command) (s1 s2 : State) (pre : list string -> M unit),
    newRootCmd D s = Returned cmd s1 /\
    Use cmd = filepath_Base D a /\
    PersistentPreRun cmd = Some pre /\
    pre args s1 = Returned tt s2 /\
    Dir (RootOpts s2) = "." /\
    Hooks (logger s2)
    = Hooks (logger s) ++ [stderr_hook l (stderr_terminal s)].
Proof.
  unfold newRootCmd, bind, os_Args_0, StringVar, ret.
  rewrite Hargs. simpl.
  eexists _, _, _, _. split; [reflexivity | ].
  split; [reflexivity | ]. split; [reflexivity | ].
  split; [eapply runRootCmd_returns; exact Hinfo | ].
  split; reflexivity.
Qed.

(** ** [installerMain] *)

Lemma build_returns (names : list SubName) (s : State) :
  exists cmds s', build D names s = Returned cmds s' /\
                  length cmds = length names.
Proof.
  revert s. induction names as [|n names IH]; intros s; simpl.
  - eexists _, _. split; reflexivity.
  - unfold bind. destruct (newSubCmd D n s) as [c s1].
    destruct (IH s1) as (cs & s2 & Hb & Hlen). rewrite Hb. simpl.
    eexists _, _. split; [reflexivity | ]. simpl. rewrite Hlen. reflexivity.
Qed.

Lemma AddCommand_all (subs : list Command) (cmd : Command) :
  let root := fold_left (fun cmd sub => AddCommand sub cmd) subs cmd in
  commands root = commands cmd ++ subs /\
  SilenceErrors root = SilenceErrors cmd /\
  SilenceUsage root = SilenceUsage cmd /\
  PersistentFlags root = PersistentFlags cmd.
Proof.
  revert cmd. induction subs as [|c subs IH]; intros cmd; simpl.
  - rewrite app_nil_r. repeat split.
  - destruct (IH (AddCommand c cmd)) as (H1 & H2 & H3 & H4).
    simpl in *. rewrite H1, H2, H3, H4, <- (assoc_L (++)). repeat split.
Qed.

(** X15: when the process has a first argument, [installerMain] hands to
    [Execute] a root command that silences cobra's own error and usage
    output and holds the commands the twelve constructors returned, in the
    order of the source.  When [Execute] returns nil it returns normally;
    when [Execute] returns an error it ends the process with exit code 1,
    whatever the logger's level, after logging "Error executing
    openshift-install: " and the error at fatal level if the logger's level
    lets a fatal line through. *)
Theorem installerMain_outcome
    (s : State) (a : string) (rest : list string)
    (Hargs : Args s = a :: rest) :
  exists (root0 : Command) (subs : list Command) (s1 s2 : State),
    newRootCmd D s = Returned root0 s1 /\
    build D subcommand_order s1 = Returned subs s2 /\
    length subs = 12 /\
    let root := fold_left (fun cmd sub => AddCommand sub cmd) subs root0 in
    commands root = subs /\
    SilenceErrors root = true /\ SilenceUsage root = true /\
    (forall s3, cobra_Execute D root s2 = Returned None s3 ->
                installerMain D s = Returned tt s3) /\
    (forall e s3, cobra_Execute D root s2 = Returned (Some e) s3 ->
       exists s4,
         installerMain D s = Exited 1 s4 /\
         logger s4 = logger s3 /\
         entries s4
         = if IsLevelEnabled (logger s3) FatalLevel
           then entries s3
                ++ [mk_Entry FatalLevel
                      ("Error executing openshift-install: " +:+ errors.Error e)
                      (Hooks (logger s3))]
           else entries s3).
Proof.
  unfold installerMain.
  assert (Hroot : exists root0 s1,
             newRootCmd D s = Returned root0 s1 /\ commands root0 = [] /\
             SilenceErrors root0 = true /\ SilenceUsage root0 = true).
  { unfold newRootCmd, bind, os_Args_0, StringVar, ret. rewrite Hargs. simpl.
    eexists _, _. split; [reflexivity | ]. repeat split. }
  destruct Hroot as (root0 & s1 & Hnew & Hc0 & Hse & Hsu).
  destruct (build_returns subcommand_order s1) as (subs & s2 & Hb & Hlen).
  destruct (AddCommand_all subs root0) as (Hc & He & Hu & _).
  exists root0, subs, s1, s2.
  split; [exact Hnew | ]. split; [exact Hb | ]. split; [exact Hlen | ].
  cbv zeta.
  split; [rewrite Hc, Hc0; reflexivity | ].
  split; [rewrite He; exact Hse | ]. split; [rewrite Hu; exact Hsu | ].
  unfold bind. rewrite Hnew. cbv beta iota. rewrite Hb. cbv beta iota.
  split.
  - intros s3 Hx. rewrite Hx. reflexivity.
  - intros e s3 Hx. rewrite Hx.
    unfold logrus_Fatalf, bind, logrus_Log, logrus_Exit.
    destruct (IsLevelEnabled (logger s3) FatalLevel);
      eexists; (split; [reflexivity | ]); split; reflexivity.
Qed.

End Entry.

(** ** On the concrete instance *)

Lemma runRootCmd_valid_level_witness :
  logrus_ParseLevel demo (LogLevel (RootOpts (start "debug")))
  = (DebugLevel, None) /\
  exists s', runRootCmd demo [] (start "debug") = Returned tt s' /\
             Hooks (logger s')
             = [mk_FileHook os_Stderr DebugLevel
                  {| ForceColors := false; DisableTimestamp := true;
                     DisableLevelTruncation := true; DisableQuote := true |}].
Proof.
  split; [reflexivity | ].
  destruct (runRootCmd_valid_level demo [] (start "debug") DebugLevel eq_refl)
    as (s' & Hrun & Hlog & _).
  exists s'. split; [exact Hrun | ]. rewrite Hlog. reflexivity.
Defined.

Lemma runRootCmd_invalid_level_witness :
  logrus_ParseLevel demo (LogLevel (RootOpts (start "verbose")))
  = (PanicLevel, Some (errors.Opaque "not a valid logrus Level: verbose")) /\
  exists s', runRootCmd demo [] (start "verbose") = Exited 1 s' /\
             map e_message (entries s')
             = ["invalid log-level: not a valid logrus Level: verbose"].
Proof.
  split; [reflexivity | ].
  destruct (runRootCmd_invalid_level demo [] (start "verbose") PanicLevel _
              eq_refl) as (s' & Hrun & _ & Hent).
  exists s'. split; [exact Hrun | ]. rewrite Hent. reflexivity.
Defined.

Lemma defaults_witness :
  Args (start "verbose") = ["openshift-install"] /\
  logrus_ParseLevel demo "info" = (InfoLevel, None) /\
  exists cmd s1 s2 pre,
    newRootCmd demo (start "verbose") = Returned cmd s1 /\
    PersistentPreRun cmd = Some pre /\
    pre [] s1 = Returned tt s2 /\
    Dir (RootOpts s2) = ".".
Proof.
  split; [reflexivity | ]. split; [reflexivity | ].
  destruct (defaults_of_the_root_command demo [] (start "verbose")
              "openshift-install" [] InfoLevel eq_refl eq_refl)
    as (cmd & s1 & s2 & pre & H1 & _ & H2 & H3 & H4 & _).
  exists cmd, s1, s2, pre. repeat split; assumption.
Defined.

Lemma installerMain_witness :
  Args (start "") = ["openshift-install"] /\
  exists root subs,
    commands root = subs /\
    map (@Use FileHook unit) subs
    = ["create"; "destroy"; "wait-for"; "gather"; "analyze"; "version";
       "graph"; "coreos"; "completion"; "migrate"; "explain"; "agent"] /\
    exists s3, installerMain demo (start "") = Returned tt s3.
Proof.
  split; [reflexivity | ].
  destruct (installerMain_outcome demo (start "") "openshift-install" []
              eq_refl)
    as (root0 & subs & s1 & s2 & Hnew & Hb & _ & Hc & _ & _ & Hok & _).
  injection Hnew as <- <-. injection Hb as <- <-.
  eexists _, _. split; [exact Hc | ]. split; [reflexivity | ].
  eexists. apply Hok. reflexivity.
Defined.

End MainProperties.
